(** * SQL semantic validation engine (src/dev2): a shallow embedding

    The development follows the Python sources file by file:
    [models.py], [sql_parser.py], [hallucination_detector.py],
    [schema_validator.py] and [join_path_verifier.py].

    - Python [str] values are [string]s; the case and whitespace methods
      are embedded for ASCII text (code points above 127 are left as
      they are).
    - Python [dict]s are [gmap]s, Python [set]s are [gset]s, Python
      [list]s are [list]s.
    - A call that may raise returns a [result]: [Returns v] or
      [Raises e].
    - [sqlglot] is an external library.  Its parser is a parameter of
      the embedding, and a syntax tree is seen through the queries the
      engine makes on it ([find_all] by node kind, node attributes). *)

From stdpp Require Import gmap strings list fin_maps.
From Stdlib Require Import Ascii QArith.
Close Scope Q_scope.

(* ===================================================================== *)
(** ** Python string methods used by the engine *)
(* ===================================================================== *)

Module PyStr.

Definition in_range (lo hi : N) (c : ascii) : bool :=
  let n := N_of_ascii c in ((lo <=? n) && (n <=? hi))%N.

(** [c.lower()] and [c.upper()] on one ASCII character.  Python's
    methods are Unicode-aware; these agree with them on ASCII text
    ([ascii_text]) and leave every other character as it is. *)
Definition char_lower (c : ascii) : ascii :=
  if in_range 65 90 c then ascii_of_N (N_of_ascii c + 32) else c.

Definition char_upper (c : ascii) : ascii :=
  if in_range 97 122 c then ascii_of_N (N_of_ascii c - 32) else c.

(** [c.isspace()]: tab, line feed, vertical tab, form feed, carriage
    return, the four separators 28..31 and the space. *)
Definition is_space (c : ascii) : bool :=
  in_range 9 13 c || in_range 28 32 c.

Fixpoint lower (s : string) : string :=
  match s with
  | EmptyString => EmptyString
  | String c s' => String (char_lower c) (lower s')
  end.

Fixpoint upper (s : string) : string :=
  match s with
  | EmptyString => EmptyString
  | String c s' => String (char_upper c) (upper s')
  end.

Fixpoint lstrip (s : string) : string :=
  match s with
  | EmptyString => EmptyString
  | String c s' => if is_space c then lstrip s' else s
  end.

Definition rstrip (s : string) : string :=
  String.rev (lstrip (String.rev s)).

(** [s.strip()] *)
Definition strip (s : string) : string := rstrip (lstrip s).

(** [s.split(sep)] for a one-character separator: never empty. *)
Fixpoint split (sep : ascii) (s : string) : list string :=
  match s with
  | EmptyString => [EmptyString]
  | String c s' =>
      if bool_decide (c = sep) then EmptyString :: split sep s'
      else match split sep s' with
           | h :: t => String c h :: t
           | [] => [String c EmptyString]
           end
  end.

(** [s.split(".")[-1]] *)
Definition last_segment (s : string) : string :=
  List.last (split "."%char s) EmptyString.

(** ["." in s] *)
Fixpoint has_dot (s : string) : bool :=
  match s with
  | EmptyString => false
  | String c s' => bool_decide (c = "."%char) || has_dot s'
  end.

(** [s.startswith(p)] *)
Fixpoint startswith (p s : string) : bool :=
  match p, s with
  | EmptyString, _ => true
  | String a p', String b s' => bool_decide (a = b) && startswith p' s'
  | String _ _, EmptyString => false
  end.

(** [p in s] for strings. *)
Fixpoint contains (p s : string) : bool :=
  startswith p s ||
  match s with
  | EmptyString => false
  | String _ s' => contains p s'
  end.

(** Truth value of a string and of an [Optional[str]]. *)
Definition truthy (s : string) : bool := negb (bool_decide (s = EmptyString)).

Definition truthy_opt (o : option string) : bool :=
  match o with
  | Some s => truthy s
  | None => false
  end.

(** [x or y] on [Optional[str]] values. *)
Definition or_else (x y : option string) : option string :=
  if truthy_opt x then x else y.

End PyStr.

(* ===================================================================== *)
(** ** Exceptions *)
(* ===================================================================== *)

(** [sqlglot.errors.ParseError] is the one exception class the engine
    names; [OtherError cls] is an exception of any other class
    ([TokenError], [ValueError], ...). *)
Inductive exception : Type :=
| ParseError
| OtherError (cls : string).

Inductive result (A : Type) : Type :=
| Returns (a : A)
| Raises (e : exception).
Arguments Returns {A} a.
Arguments Raises {A} e.

#[global] Instance result_ret : MRet result := λ A a, Returns a.
#[global] Instance result_bind : MBind result := λ A B f m,
  match m with
  | Returns a => f a
  | Raises e => Raises e
  end.

#[global] Instance result_fmap : FMap result := λ A B f m,
  match m with
  | Returns a => Returns (f a)
  | Raises e => Raises e
  end.

Definition returns_normally {A} (r : result A) : Prop :=
  ∃ a, r = Returns a.

(** A [for] loop that appends to a list the elements passing a test. *)
Definition append_if {A} (test : A → bool) (acc : list A) (x : A) : list A :=
  if test x then acc ++ [x] else acc.

(* ===================================================================== *)
(** ** models.py *)
(* ===================================================================== *)

Module IdentifierSet.
Record t : Type := mk {
  tables : list string;
  columns : list string;
  functions : list string;
  aliases : gmap string string;
}.
End IdentifierSet.

Module HallucinationReport.
Record t : Type := mk {
  phantom_tables : list string;
  phantom_columns : list string;
  phantom_functions : list string;
  total_hallucinations : Z;
  hallucination_score : Q;
}.

(** The dataclass constructor followed by [__post_init__]. *)
Definition init (phantom_tables phantom_columns phantom_functions : list string)
    (hallucination_score : Q) : t :=
  {| phantom_tables := phantom_tables;
     phantom_columns := phantom_columns;
     phantom_functions := phantom_functions;
     total_hallucinations :=
       (Z.of_nat (length phantom_tables) +
        Z.of_nat (length phantom_columns) +
        Z.of_nat (length phantom_functions))%Z;
     hallucination_score := hallucination_score |}.
End HallucinationReport.

Module ValidationResult.
Record t : Type := mk {
  is_valid : bool;
  errors : list string;
  warnings : list string;
  hallucination_report : option HallucinationReport.t;
}.
End ValidationResult.

(* ===================================================================== *)
(** ** The schema object *)
(* ===================================================================== *)

(** The schema is supplied by the caller ([schema: Any]); its class is
    not part of [src/dev2].  The engine uses three members of it: the
    method [has_table], the dict [tables] and, when the attribute is
    there, the collection [functions]. *)

Module ColumnInfo.
Record t : Type := mk {
  name : string;
  foreign_key : option string;
}.
End ColumnInfo.

Module TableInfo.
Record t : Type := mk {
  columns : list ColumnInfo.t;
}.
End TableInfo.

Module Schema.
Record t : Type := mk {
  has_table : string → bool;
  tables : gmap string TableInfo.t;
  functions : option (list string);
}.

(** Modelled from the spec: the schema class and its [has_table] are
    missing from the sources.  Section 4.4 has table existence "checked
    case-sensitively as stored", so a snapshot answers [has_table] by
    exact membership of the name among the keys of [tables]. *)
Definition snapshot (tables : gmap string TableInfo.t)
    (functions : option (list string)) : t :=
  {| has_table := λ name, bool_decide (is_Some (tables !! name));
     tables := tables;
     functions := functions |}.
End Schema.

(* ===================================================================== *)
(** ** sqlglot as the engine sees it *)
(* ===================================================================== *)

Module exp.

(** [exp.Table]: [name], [db] and [catalog] are empty when absent. *)
Record Table : Type := mkTable {
  table_name : string;
  table_db : string;
  table_catalog : string;
}.

(** [exp.Column]: [name] and the qualifier [table] (empty when absent). *)
Record Column : Type := mkColumn {
  column_name : string;
  column_table : string;
}.

(** [exp.Func]: the class name, the attribute [name] when the node has
    one, and the value of [sql_name()] when the node has that method. *)
Record Func : Type := mkFunc {
  func_class : string;
  func_name : option string;
  func_sql_name : option string;
}.

(** [exp.Alias]: [alias], the [name] of [this] when it has one, and
    [str(this)]. *)
Record Alias : Type := mkAlias {
  alias_alias : string;
  alias_this_name : option string;
  alias_this_str : string;
}.

(** An operand of a comparison: a column or anything else. *)
Inductive Operand : Type :=
| OColumn (c : Column)
| OOther.

(** [exp.EQ] *)
Record EQ : Type := mkEQ {
  eq_left : Operand;
  eq_right : Operand;
}.

(** [exp.Join]: the table in [this] when [this] is an [exp.Table], and
    the equalities [find_all(exp.EQ)] finds under [args.get('on')]. *)
Record Join : Type := mkJoin {
  join_this : option Table;
  join_on : option (list EQ);
}.

(** A tree, through [find_all] for the node kinds the engine asks for,
    in the order [find_all] yields them. *)
Record Expression : Type := mkExpression {
  find_all_Table : list Table;
  find_all_Column : list Column;
  find_all_Func : list Func;
  find_all_Alias : list Alias;
  find_all_Join : list Join;
}.

End exp.

Inductive ErrorLevel : Type := IGNORE | WARN | RAISE | IMMEDIATE.

(** What the engine runs on: [sqlglot.parse_one(sql, read, error_level)]
    and the order in which a Python [set] of strings is iterated by
    [list(...)]. *)
Record Runtime : Type := mkRuntime {
  parse_one : string → option string → option ErrorLevel → result exp.Expression;
  list_of_set : gset string → list string;
}.

(** [list(s)] enumerates the elements of [s], each once, in an order of
    the interpreter's choosing. *)
Definition set_order_ok (rt : Runtime) : Prop :=
  ∀ X : gset string, list_of_set rt X ≡ₚ elements X.

(* ===================================================================== *)
(** ** sql_parser.py *)
(* ===================================================================== *)

(** Supported dialects mapping to sqlglot dialect names. *)
Definition DIALECT_MAP : gmap string (option string) :=
  list_to_map [
    ("postgres", Some "postgres");
    ("postgresql", Some "postgres");
    ("sqlite", Some "sqlite");
    ("duckdb", Some "duckdb");
    ("bigquery", Some "bigquery");
    ("snowflake", Some "snowflake");
    ("clickhouse", Some "clickhouse");
    ("mysql", Some "mysql");
    ("", None)
  ].

Definition BIGQUERY_FUNCTIONS : gset string :=
  list_to_set [
    "SAFE_DIVIDE"; "SAFE_MULTIPLY"; "SAFE_NEGATE"; "SAFE_ADD"; "SAFE_SUBTRACT";
    "DATE_DIFF"; "DATE_ADD"; "DATE_SUB"; "DATE_TRUNC"; "DATETIME_DIFF";
    "TIMESTAMP_DIFF"; "TIMESTAMP_ADD"; "TIMESTAMP_SUB"; "TIMESTAMP_TRUNC";
    "PARSE_DATE"; "PARSE_DATETIME"; "PARSE_TIMESTAMP"; "FORMAT_DATE";
    "ARRAY_AGG"; "ARRAY_LENGTH"; "ARRAY_TO_STRING"; "GENERATE_ARRAY";
    "STRUCT"; "UNNEST"; "ARRAY"; "CURRENT_DATE"; "CURRENT_TIMESTAMP";
    "IFNULL"; "NULLIF"; "COALESCE"; "IF"; "CASE";
    "REGEXP_CONTAINS"; "REGEXP_EXTRACT"; "REGEXP_REPLACE";
    "JSON_EXTRACT"; "JSON_EXTRACT_SCALAR"; "JSON_QUERY"; "JSON_VALUE";
    "ST_GEOGPOINT"; "ST_DISTANCE"; "ST_CONTAINS"; "ST_INTERSECTS";
    "APPROX_COUNT_DISTINCT"; "APPROX_QUANTILES"; "APPROX_TOP_COUNT";
    "FARM_FINGERPRINT"; "MD5"; "SHA256"; "SHA512";
    "NET.IP_FROM_STRING"; "NET.SAFE_IP_FROM_STRING"; "NET.IP_TO_STRING"
  ].

Definition SNOWFLAKE_FUNCTIONS : gset string :=
  list_to_set [
    "DATEADD"; "DATEDIFF"; "DATE_TRUNC"; "DATE_PART"; "DAYNAME"; "MONTHNAME";
    "TIMEADD"; "TIMEDIFF"; "TIMESTAMPADD"; "TIMESTAMPDIFF";
    "TO_DATE"; "TO_TIMESTAMP"; "TO_TIME"; "TO_CHAR"; "TO_VARCHAR";
    "TRY_TO_DATE"; "TRY_TO_TIMESTAMP"; "TRY_TO_NUMBER";
    "ARRAY_AGG"; "ARRAY_SIZE"; "ARRAY_SLICE"; "ARRAY_CAT"; "ARRAY_COMPACT";
    "OBJECT_CONSTRUCT"; "OBJECT_KEYS"; "OBJECT_AGG";
    "PARSE_JSON"; "TRY_PARSE_JSON"; "GET_PATH"; "FLATTEN";
    "IFF"; "IFNULL"; "NVL"; "NVL2"; "NULLIF"; "COALESCE"; "ZEROIFNULL";
    "REGEXP_LIKE"; "REGEXP_REPLACE"; "REGEXP_SUBSTR"; "REGEXP_COUNT";
    "SPLIT"; "SPLIT_PART"; "STRTOK"; "STRTOK_TO_ARRAY";
    "HASH"; "MD5"; "SHA1"; "SHA2";
    "LISTAGG"; "WITHIN GROUP"; "QUALIFY";
    "RATIO_TO_REPORT"; "CUME_DIST"; "PERCENT_RANK"; "NTILE";
    "CURRENT_DATABASE"; "CURRENT_SCHEMA"; "CURRENT_WAREHOUSE";
    "SYSTEM$TYPEOF"; "TYPEOF"; "IS_INTEGER"; "IS_DECIMAL"
  ].

Definition COMMON_FUNCTIONS : gset string :=
  list_to_set [
    "COUNT"; "SUM"; "AVG"; "MIN"; "MAX"; "ABS"; "ROUND"; "CEIL"; "FLOOR";
    "UPPER"; "LOWER"; "TRIM"; "LTRIM"; "RTRIM"; "LENGTH"; "SUBSTRING"; "CONCAT";
    "REPLACE"; "CAST"; "CONVERT"; "COALESCE"; "NULLIF"; "IFNULL";
    "NOW"; "CURRENT_DATE"; "CURRENT_TIME"; "CURRENT_TIMESTAMP";
    "YEAR"; "MONTH"; "DAY"; "HOUR"; "MINUTE"; "SECOND";
    "ROW_NUMBER"; "RANK"; "DENSE_RANK"; "LAG"; "LEAD"; "FIRST_VALUE"; "LAST_VALUE";
    "OVER"; "PARTITION"; "ORDER"
  ].

Module ParsedSQL.
Record t : Type := mk {
  ast : exp.Expression;
  dialect : string;
  tables : list string;
  columns : list string;
  functions : list string;
  aliases : gmap string string;
  raw_sql : string;
}.
End ParsedSQL.

Module SQLParser.

Record t : Type := mk { default_dialect : option string }.

(** Normalize dialect name to sqlglot format. *)
Definition _normalize_dialect (dialect : string) : option string :=
  if negb (PyStr.truthy dialect) then None
  else
    let dialect_lower := PyStr.strip (PyStr.lower dialect) in
    match DIALECT_MAP !! dialect_lower with
    | Some canonical => canonical
    | None => Some dialect_lower
    end.

(** [SQLParser(default_dialect)] *)
Definition init (default_dialect : string) : t :=
  {| default_dialect := _normalize_dialect default_dialect |}.

(** Get valid functions for a specific dialect. *)
Definition get_dialect_functions (dialect : string) : gset string :=
  let normalized := _normalize_dialect dialect in
  let functions := COMMON_FUNCTIONS in
  if bool_decide (normalized = Some "bigquery") then functions ∪ BIGQUERY_FUNCTIONS
  else if bool_decide (normalized = Some "snowflake") then functions ∪ SNOWFLAKE_FUNCTIONS
  else functions.

(** Check if a function is valid for the given dialect. *)
Definition is_valid_function (func_name dialect : string) : bool :=
  let valid_functions := get_dialect_functions dialect in
  bool_decide (PyStr.upper func_name ∈ valid_functions).

Definition fallback_dialects : list (option string) :=
  [Some "postgres"; Some "bigquery"; Some "snowflake"; None].

(** The name a table reference is recorded under. *)
Definition table_entry (table : exp.Table) : string :=
  let table_name := exp.table_name table in
  let table_name :=
    if PyStr.truthy (exp.table_db table)
    then exp.table_db table +:+ "." +:+ table_name else table_name in
  let table_name :=
    if PyStr.truthy (exp.table_catalog table)
    then exp.table_catalog table +:+ "." +:+ table_name else table_name in
  table_name.

Definition column_entry (col : exp.Column) : string :=
  let col_name := exp.column_name col in
  if PyStr.truthy (exp.column_table col)
  then exp.column_table col +:+ "." +:+ col_name else col_name.

Definition func_entry (func : exp.Func) : string :=
  let func_name := PyStr.upper (exp.func_class func) in
  if PyStr.truthy_opt (exp.func_name func)
  then PyStr.upper (default "" (exp.func_name func))
  else match exp.func_sql_name func with
       | Some sql_name => PyStr.upper sql_name
       | None => func_name
       end.

Definition alias_entry (aliases : gmap string string) (alias : exp.Alias)
    : gmap string string :=
  let alias_name := exp.alias_alias alias in
  match exp.alias_this_name alias with
  | Some name => <[alias_name := name]> aliases
  | None => <[alias_name := exp.alias_this_str alias]> aliases
  end.

Section WithRuntime.
Variable rt : Runtime.

(** [sqlglot.parse_one(sql, read=d)] when [d] is truthy, else
    [sqlglot.parse_one(sql)]. *)
Definition parse_as (sql : string) (d : option string) : result exp.Expression :=
  if PyStr.truthy_opt d then parse_one rt sql d None
  else parse_one rt sql None None.

(** Extract all identifiers from AST. *)
Definition _extract_all_identifiers (ast : exp.Expression) : IdentifierSet.t :=
  let tables := table_entry <$> exp.find_all_Table ast in
  let columns := column_entry <$> exp.find_all_Column ast in
  let functions := func_entry <$> exp.find_all_Func ast in
  let aliases := foldl alias_entry ∅ (exp.find_all_Alias ast) in
  {| IdentifierSet.tables := list_of_set rt (list_to_set tables);
     IdentifierSet.columns := list_of_set rt (list_to_set columns);
     IdentifierSet.functions := list_of_set rt (list_to_set functions);
     IdentifierSet.aliases := aliases |}.

(** The [for] loop of [_parse_with_fallback]: the first fallback, other
    than [dialect], whose parse does not raise. *)
Fixpoint try_fallbacks (sql : string) (dialect : option string)
    (fallbacks : list (option string)) : option exp.Expression :=
  match fallbacks with
  | [] => None
  | fallback :: rest =>
      if bool_decide (fallback = dialect) then try_fallbacks sql dialect rest
      else match parse_as sql fallback with
           | Returns ast => Some ast
           | Raises _ => try_fallbacks sql dialect rest
           end
  end.

(** Try multiple dialects if primary fails. *)
Definition _parse_with_fallback (sql : string) (dialect : option string)
    : result exp.Expression :=
  match try_fallbacks sql dialect fallback_dialects with
  | Some ast => Returns ast
  | None => parse_one rt sql None (Some IGNORE)
  end.

(** Parse SQL into a structured ParsedSQL object. *)
Definition parse (self : t) (sql dialect : string) : result ParsedSQL.t :=
  let normalized_dialect :=
    PyStr.or_else (_normalize_dialect dialect) (default_dialect self) in
  ast ← match parse_as sql normalized_dialect with
        | Returns ast => Returns ast
        | Raises ParseError => _parse_with_fallback sql normalized_dialect
        | Raises e => Raises e
        end;
  let identifiers := _extract_all_identifiers ast in
  Returns {|
    ParsedSQL.ast := ast;
    ParsedSQL.dialect := default "auto" (PyStr.or_else normalized_dialect None);
    ParsedSQL.tables := IdentifierSet.tables identifiers;
    ParsedSQL.columns := IdentifierSet.columns identifiers;
    ParsedSQL.functions := IdentifierSet.functions identifiers;
    ParsedSQL.aliases := IdentifierSet.aliases identifiers;
    ParsedSQL.raw_sql := sql |}.

(** Extract all identifiers (tables, columns, functions) from SQL. *)
Definition extract_identifiers (self : t) (sql dialect : string)
    : result IdentifierSet.t :=
  parsed ← parse self sql dialect;
  Returns {|
    IdentifierSet.tables := ParsedSQL.tables parsed;
    IdentifierSet.columns := ParsedSQL.columns parsed;
    IdentifierSet.functions := ParsedSQL.functions parsed;
    IdentifierSet.aliases := ParsedSQL.aliases parsed |}.

End WithRuntime.
End SQLParser.

(* ===================================================================== *)
(** ** hallucination_detector.py *)
(* ===================================================================== *)

Module HallucinationDetector.

Record t : Type := mk { parser : SQLParser.t }.

Definition init : t := {| parser := SQLParser.init "" |}.

(** [schema.tables.get(table_name) or schema.tables.get(table)] *)
Definition table_info_of (schema : Schema.t) (table_name table : string)
    : option TableInfo.t :=
  match Schema.tables schema !! table_name with
  | Some table_info => Some table_info
  | None => Schema.tables schema !! table
  end.

(** Find tables that don't exist in the schema. *)
Definition _detect_phantom_tables (tables : list string) (schema : Schema.t)
    : list string :=
  foldl (append_if (λ table,
    let table_name := PyStr.last_segment table in
    negb (Schema.has_table schema table_name) &&
    negb (Schema.has_table schema table))) [] tables.

(** The columns of one referenced table, bare and qualified. *)
Definition add_table_columns (schema : Schema.t) (valid_columns : gset string)
    (table : string) : gset string :=
  let table_name := PyStr.last_segment table in
  match table_info_of schema table_name table with
  | Some table_info =>
      foldl (λ valid_columns col,
        valid_columns
          ∪ {[ PyStr.lower (ColumnInfo.name col) ]}
          ∪ {[ PyStr.lower table_name +:+ "." +:+ PyStr.lower (ColumnInfo.name col) ]})
        valid_columns (TableInfo.columns table_info)
  | None => valid_columns
  end.

(** The columns of one aliased table, qualified by the alias. *)
Definition add_alias_columns (schema : Schema.t) (valid_columns : gset string)
    (item : string * string) : gset string :=
  let '(alias, actual) := item in
  match Schema.tables schema !! actual with
  | Some actual_table =>
      foldl (λ valid_columns col,
        valid_columns
          ∪ {[ PyStr.lower alias +:+ "." +:+ PyStr.lower (ColumnInfo.name col) ]})
        valid_columns (TableInfo.columns actual_table)
  | None => valid_columns
  end.

(** The set of all valid columns from referenced and aliased tables. *)
Definition valid_columns_of (tables : list string) (aliases : gmap string string)
    (schema : Schema.t) : gset string :=
  let valid_columns := foldl (add_table_columns schema) ∅ tables in
  foldl (add_alias_columns schema) valid_columns (map_to_list aliases).

(** [col_name_only in [c.name.lower() for c in table_info.columns]] for
    some [table_info] of [schema.tables.values()]. *)
Definition found_anywhere (schema : Schema.t) (col_name_only : string) : bool :=
  existsb (λ table_info : TableInfo.t,
    bool_decide (col_name_only ∈
      (λ c, PyStr.lower (ColumnInfo.name c)) <$> TableInfo.columns table_info))
    (map_to_list (Schema.tables schema)).*2.

Definition column_is_phantom (valid_columns : gset string) (schema : Schema.t)
    (col : string) : bool :=
  let col_lower := PyStr.lower col in
  let col_name_only := PyStr.lower (PyStr.last_segment col) in
  if negb (bool_decide (col_lower ∈ valid_columns)) &&
     negb (bool_decide (col_name_only ∈ valid_columns))
  then
    if negb (PyStr.has_dot col)
    then negb (found_anywhere schema col_name_only)
    else true
  else false.

(** Find columns that don't exist in any referenced table. *)
Definition _detect_phantom_columns (columns tables : list string)
    (aliases : gmap string string) (schema : Schema.t) : list string :=
  let valid_columns := valid_columns_of tables aliases schema in
  foldl (append_if (column_is_phantom valid_columns schema)) [] columns.

(** The entries of the alias table of [_is_function_alias]. *)
Inductive alias_target : Type :=
| Always
| Target (name : string).

Definition function_aliases : gmap string alias_target :=
  list_to_map [
    ("ANONYMOUS", Always);
    ("IF", Target "IFF");
    ("SUBSTR", Target "SUBSTRING");
    ("LEN", Target "LENGTH");
    ("CHARINDEX", Target "POSITION")
  ].

(** Check if function is a known alias of a valid function. *)
Definition _is_function_alias (func : string) (valid_functions : gset string)
    : bool :=
  match function_aliases !! func with
  | Some Always => true
  | Some (Target name) => bool_decide (name ∈ valid_functions)
  | None => false
  end.

(** The valid functions of a dialect together with the custom functions
    defined in the schema. *)
Definition valid_functions_of (dialect : string) (schema : Schema.t)
    : gset string :=
  let valid_functions := SQLParser.get_dialect_functions dialect in
  match Schema.functions schema with
  | Some functions => valid_functions ∪ list_to_set (PyStr.upper <$> functions)
  | None => valid_functions
  end.

(** Find functions that aren't valid for the dialect. *)
Definition _detect_phantom_functions (functions : list string) (dialect : string)
    (schema : Schema.t) : list string :=
  let valid_functions := valid_functions_of dialect schema in
  foldl (append_if (λ func,
    let func_upper := PyStr.upper func in
    negb (bool_decide (func_upper ∈ valid_functions)) &&
    negb (_is_function_alias func_upper valid_functions))) [] functions.

Definition table_error (table : string) : string :=
  "Table '" +:+ table +:+ "' does not exist in schema".

Definition column_error (col : string) : string :=
  "Column '" +:+ col +:+ "' does not exist in any table".

Definition function_warning (dialect func : string) : string :=
  "Function '" +:+ func +:+ "' may not be valid for dialect '" +:+ dialect +:+ "'".

Section WithRuntime.
Variable rt : Runtime.

(** Detect hallucinated identifiers in SQL query.  The score is the
    exact quotient that Python's [/] rounds to a float. *)
Definition detect (self : t) (sql : string) (schema : Schema.t) (dialect : string)
    : result HallucinationReport.t :=
  identifiers ← SQLParser.extract_identifiers rt (parser self) sql dialect;
  let phantom_tables :=
    _detect_phantom_tables (IdentifierSet.tables identifiers) schema in
  let phantom_columns :=
    _detect_phantom_columns
      (IdentifierSet.columns identifiers)
      (IdentifierSet.tables identifiers)
      (IdentifierSet.aliases identifiers)
      schema in
  let phantom_functions :=
    _detect_phantom_functions (IdentifierSet.functions identifiers) dialect schema in
  let total_identifiers :=
    (Z.of_nat (length (IdentifierSet.tables identifiers)) +
     Z.of_nat (length (IdentifierSet.columns identifiers)) +
     Z.of_nat (length (IdentifierSet.functions identifiers)))%Z in
  let total_phantoms :=
    (Z.of_nat (length phantom_tables) +
     Z.of_nat (length phantom_columns) +
     Z.of_nat (length phantom_functions))%Z in
  let score := (inject_Z total_phantoms / inject_Z (Z.max 1 total_identifiers))%Q in
  Returns (HallucinationReport.init phantom_tables phantom_columns phantom_functions score).

(** Validate SQL and return a ValidationResult. *)
Definition validate (self : t) (sql : string) (schema : Schema.t) (dialect : string)
    : result ValidationResult.t :=
  report ← detect self sql schema dialect;
  let errors := [] in
  let warnings := [] in
  let errors :=
    foldl (λ errors table, errors ++ [table_error table])
      errors (HallucinationReport.phantom_tables report) in
  let errors :=
    foldl (λ errors col, errors ++ [column_error col])
      errors (HallucinationReport.phantom_columns report) in
  let warnings :=
    foldl (λ warnings func, warnings ++ [function_warning dialect func])
      warnings (HallucinationReport.phantom_functions report) in
  Returns {|
    ValidationResult.is_valid := bool_decide (length errors = 0);
    ValidationResult.errors := errors;
    ValidationResult.warnings := warnings;
    ValidationResult.hallucination_report := Some report |}.

End WithRuntime.
End HallucinationDetector.

(* ===================================================================== *)
(** ** schema_validator.py *)
(* ===================================================================== *)

Module SchemaValidator.

Definition column_names (table_info : TableInfo.t) : list string :=
  (λ c, PyStr.lower (ColumnInfo.name c)) <$> TableInfo.columns table_info.

(** Check if a column exists in any of the referenced tables. *)
Definition _column_exists (col : string) (tables : list string)
    (aliases : gmap string string) (schema : Schema.t) : bool :=
  let col_parts := PyStr.split "." col in
  let col_name := PyStr.lower (List.last col_parts "") in
  let table_qualifier :=
    if bool_decide (1 < length col_parts)
    then Some (PyStr.lower (List.hd "" col_parts)) else None in
  if PyStr.truthy_opt table_qualifier then
    let table_qualifier := default "" table_qualifier in
    let actual_table := default table_qualifier (aliases !! table_qualifier) in
    match Schema.tables schema !! actual_table with
    | Some table_info => bool_decide (col_name ∈ column_names table_info)
    | None => false
    end
  else
    existsb (λ table,
      let table_name := PyStr.last_segment table in
      match HallucinationDetector.table_info_of schema table_name table with
      | Some table_info => bool_decide (col_name ∈ column_names table_info)
      | None => false
      end) tables
    || existsb (λ table_info, bool_decide (col_name ∈ column_names table_info))
         (map_to_list (Schema.tables schema)).*2.

Definition table_error (table : string) : string :=
  "Table '" +:+ table +:+ "' does not exist.".

Definition column_error (col : string) : string :=
  "Column '" +:+ col +:+ "' does not exist in any table.".

(** Validate extracted identifiers against schema. *)
Definition validate (identifiers : IdentifierSet.t) (schema : Schema.t)
    : ValidationResult.t :=
  let errors := [] in
  let warnings := [] in
  let errors :=
    foldl (λ errors table,
      let table_name := PyStr.last_segment table in
      if negb (Schema.has_table schema table_name) &&
         negb (Schema.has_table schema table)
      then errors ++ [table_error table] else errors)
      errors (IdentifierSet.tables identifiers) in
  let errors :=
    foldl (λ errors col,
      if negb (_column_exists col (IdentifierSet.tables identifiers)
                 (IdentifierSet.aliases identifiers) schema)
      then errors ++ [column_error col] else errors)
      errors (IdentifierSet.columns identifiers) in
  {| ValidationResult.is_valid := bool_decide (length errors = 0);
     ValidationResult.errors := errors;
     ValidationResult.warnings := warnings;
     ValidationResult.hallucination_report := None |}.

End SchemaValidator.

(* ===================================================================== *)
(** ** join_path_verifier.py *)
(* ===================================================================== *)

Module JoinPathVerifier.

Record t : Type := mk { parser : SQLParser.t }.

Definition init : t := {| parser := SQLParser.init "" |}.

(** Extract column pairs from JOIN ON clause. *)
Definition _extract_join_columns (on_clause : list exp.EQ)
    : list (string * string) :=
  foldl (λ pairs eq,
    match exp.eq_left eq, exp.eq_right eq with
    | exp.OColumn l, exp.OColumn r =>
        let left_name :=
          if PyStr.truthy (exp.column_table l)
          then exp.column_table l +:+ "." +:+ exp.column_name l
          else exp.column_name l in
        let right_name :=
          if PyStr.truthy (exp.column_table r)
          then exp.column_table r +:+ "." +:+ exp.column_name r
          else exp.column_name r in
        pairs ++ [(left_name, right_name)]
    | _, _ => pairs
    end) [] on_clause.

(** One direction of [_is_valid_join_path]: some column of [table]
    named [column] has a foreign key into [other_table]. *)
Definition has_fk_to (schema : Schema.t) (table column other_table : string)
    : bool :=
  match Schema.tables schema !! table with
  | Some table_info =>
      existsb (λ col,
        bool_decide (PyStr.lower (ColumnInfo.name col) = PyStr.lower column) &&
        PyStr.truthy_opt (ColumnInfo.foreign_key col) &&
        let fk_parts := PyStr.split "." (default "" (ColumnInfo.foreign_key col)) in
        bool_decide (2 ≤ length fk_parts) &&
        bool_decide (PyStr.lower (List.hd "" fk_parts) = PyStr.lower other_table))
        (TableInfo.columns table_info)
  | None => false
  end.

(** Check if there's a FK relationship between columns. *)
Definition _is_valid_join_path (left_col right_col : string) (schema : Schema.t)
    : bool :=
  let left_parts := PyStr.split "." left_col in
  let right_parts := PyStr.split "." right_col in
  if bool_decide (length left_parts < 2) || bool_decide (length right_parts < 2)
  then true
  else
    let left_table := List.nth 0 left_parts "" in
    let left_column := List.nth 1 left_parts "" in
    let right_table := List.nth 0 right_parts "" in
    let right_column := List.nth 1 right_parts "" in
    has_fk_to schema left_table left_column right_table ||
    has_fk_to schema right_table right_column left_table.

(** Verify a single JOIN expression. *)
Definition _verify_single_join (join : exp.Join) (schema : Schema.t)
    : list string :=
  let errors : list string := [] in
  let join_table := exp.table_name <$> exp.join_this join in
  if negb (PyStr.truthy_opt join_table) then errors
  else
    match exp.join_on join with
    | None => errors
    | Some on_clause =>
        let join_columns := _extract_join_columns on_clause in
        foldl (λ errors pair,
          let '(left_col, right_col) := pair in
          if negb (_is_valid_join_path left_col right_col schema)
          then errors (* pass *)
          else errors) errors join_columns
    end.

(** [if x not in valid_tables: valid_tables.append(x)] *)
Definition append_new (valid_tables : list string) (x : string) : list string :=
  if bool_decide (x ∈ valid_tables) then valid_tables else valid_tables ++ [x].

(** The outgoing foreign keys of [get_valid_join_paths]. *)
Definition add_outgoing (valid_tables : list string) (col : ColumnInfo.t)
    : list string :=
  if PyStr.truthy_opt (ColumnInfo.foreign_key col) then
    let fk_table :=
      List.hd "" (PyStr.split "." (default "" (ColumnInfo.foreign_key col))) in
    append_new valid_tables fk_table
  else valid_tables.

(** The incoming foreign keys of [get_valid_join_paths], for one item
    of [schema.tables.items()]. *)
Definition add_incoming (table : string) (valid_tables : list string)
    (item : string * TableInfo.t) : list string :=
  let '(other_table_name, other_table_info) := item in
  if bool_decide (other_table_name = table) then valid_tables
  else
    foldl (λ valid_tables col,
      if PyStr.truthy_opt (ColumnInfo.foreign_key col) &&
         PyStr.startswith (table +:+ ".") (default "" (ColumnInfo.foreign_key col))
      then append_new valid_tables other_table_name
      else valid_tables)
      valid_tables (TableInfo.columns other_table_info).

(** Get all tables that can be validly JOINed with the given table.
    [dict_items] is the order in which Python iterates
    [schema.tables.items()] (insertion order, which a [gmap] does not
    record). *)
Definition get_valid_join_paths
    (dict_items : gmap string TableInfo.t → list (string * TableInfo.t))
    (table : string) (schema : Schema.t) : list string :=
  let valid_tables := [] in
  match Schema.tables schema !! table with
  | None => valid_tables
  | Some table_info =>
      let valid_tables :=
        foldl add_outgoing valid_tables (TableInfo.columns table_info) in
      foldl (add_incoming table) valid_tables (dict_items (Schema.tables schema))
  end.

Section WithRuntime.
Variable rt : Runtime.

(** Verify JOIN conditions are valid based on schema relationships. *)
Definition verify (self : t) (sql : string) (schema : Schema.t) (dialect : string)
    : result ValidationResult.t :=
  parsed ← SQLParser.parse rt (parser self) sql dialect;
  let errors := [] in
  let warnings := [] in
  let joins := exp.find_all_Join (ParsedSQL.ast parsed) in
  let errors :=
    foldl (λ errors join,
      let join_errors := _verify_single_join join schema in
      errors ++ join_errors) errors joins in
  Returns {|
    ValidationResult.is_valid := bool_decide (length errors = 0);
    ValidationResult.errors := errors;
    ValidationResult.warnings := warnings;
    ValidationResult.hallucination_report := None |}.

End WithRuntime.
End JoinPathVerifier.

(* ===================================================================== *)
(** ** Statements, trees and schemas of the scenarios *)
(* ===================================================================== *)

Module Scenario.

Definition bare_table (name : string) : exp.Table :=
  exp.mkTable name "" "".

Definition bare_column (name : string) : exp.Column :=
  exp.mkColumn name "".

Definition select_from (columns : list string) (table : string) : exp.Expression :=
  {| exp.find_all_Table := [bare_table table];
     exp.find_all_Column := bare_column <$> columns;
     exp.find_all_Func := [];
     exp.find_all_Alias := [];
     exp.find_all_Join := [] |}.

Definition customers_sql : string := "SELECT name, age FROM customers".
Definition customers_tree : exp.Expression := select_from ["name"; "age"] "customers".

(** [SELECT *] is an [exp.Star], not an [exp.Column]. *)
Definition ghost_sql : string := "SELECT * FROM ghost_table".
Definition ghost_tree : exp.Expression := select_from [] "ghost_table".

Definition Orders_sql : string := "SELECT Total FROM Orders".
Definition Orders_tree : exp.Expression := select_from ["Total"] "Orders".

Definition orders_sql : string := "select total from orders".
Definition orders_tree : exp.Expression := select_from ["total"] "orders".

(** A statement with no table, column or function. *)
Definition literal_sql : string := "SELECT 1".
Definition literal_tree : exp.Expression :=
  {| exp.find_all_Table := [];
     exp.find_all_Column := [];
     exp.find_all_Func := [];
     exp.find_all_Alias := [];
     exp.find_all_Join := [] |}.

(** A join on a pair of columns that no foreign key relates. *)
Definition join_sql : string :=
  "SELECT customers.name FROM customers JOIN orders ON customers.id = orders.total".
Definition join_tree : exp.Expression :=
  {| exp.find_all_Table := [bare_table "customers"; bare_table "orders"];
     exp.find_all_Column :=
       [exp.mkColumn "name" "customers"; exp.mkColumn "id" "customers";
        exp.mkColumn "total" "orders"];
     exp.find_all_Func := [];
     exp.find_all_Alias := [];
     exp.find_all_Join :=
       [exp.mkJoin (Some (bare_table "orders"))
          (Some [exp.mkEQ (exp.OColumn (exp.mkColumn "id" "customers"))
                          (exp.OColumn (exp.mkColumn "total" "orders"))])] |}.

(** A parser that knows the statements above.  On any other text, the
    empty statement among them, it raises [ParseError] at every error
    level ([parse_one] raises "No expression was parsed" itself when the
    statement list is empty); for the dialect name [sqlserver], which
    sqlglot does not know, it raises [ValueError]. *)
Definition known_parse_one (sql : string) (read : option string)
    (error_level : option ErrorLevel) : result exp.Expression :=
  if bool_decide (read = Some "sqlserver") then Raises (OtherError "ValueError")
  else if bool_decide (sql = customers_sql) then Returns customers_tree
  else if bool_decide (sql = ghost_sql) then Returns ghost_tree
  else if bool_decide (sql = Orders_sql) then Returns Orders_tree
  else if bool_decide (sql = orders_sql) then Returns orders_tree
  else if bool_decide (sql = join_sql) then Returns join_tree
  else if bool_decide (sql = literal_sql) then Returns literal_tree
  else Raises ParseError.

Definition runtime : Runtime := mkRuntime known_parse_one elements.

Definition column (name : string) : ColumnInfo.t :=
  {| ColumnInfo.name := name; ColumnInfo.foreign_key := None |}.

Definition table (columns : list string) : TableInfo.t :=
  {| TableInfo.columns := column <$> columns |}.

(** [customers(id, name, email)] *)
Definition customers_schema : Schema.t :=
  Schema.snapshot {[ "customers" := table ["id"; "name"; "email"] ]} None.

(** [orders(id, total)], stored in lower case. *)
Definition orders_schema : Schema.t :=
  Schema.snapshot {[ "orders" := table ["id"; "total"] ]} None.


(** [customers(id, name)] and [orders(id, total)]: no foreign keys. *)
Definition shop_schema : Schema.t :=
  Schema.snapshot
    (<[ "customers" := table ["id"; "name"] ]>
       {[ "orders" := table ["id"; "total"] ]}) None.

(** [customers(id, name)] and [orders(id, customer_id, total)], where
    [orders.customer_id] declares the foreign key [customers.id]. *)
Definition fk_schema : Schema.t :=
  Schema.snapshot
    (<[ "customers" := table ["id"; "name"] ]>
       {[ "orders" :=
            {| TableInfo.columns :=
                 [column "id";
                  {| ColumnInfo.name := "customer_id";
                     ColumnInfo.foreign_key := Some "customers.id" |};
                  column "total"] |} ]}) None.

(** A parser that accepts the customers statement under the postgres
    dialect only, and raises ParseError otherwise. *)
Definition postgres_only_parse_one (sql : string) (read : option string)
    (error_level : option ErrorLevel) : result exp.Expression :=
  if bool_decide (sql = customers_sql) && bool_decide (read = Some "postgres")
  then Returns customers_tree else Raises ParseError.

Definition postgres_only_runtime : Runtime :=
  mkRuntime postgres_only_parse_one elements.

(** The same parser on an interpreter that iterates sets the other way
    round. *)
Definition reversed_runtime : Runtime :=
  mkRuntime known_parse_one (λ X, reverse (elements X)).

(** A tree with two function calls, one of them repeated in another
    letter case, and two aliases of the same name. *)
Definition calls_tree : exp.Expression :=
  {| exp.find_all_Table := [bare_table "orders"];
     exp.find_all_Column := [bare_column "total"; bare_column "total"];
     exp.find_all_Func :=
       [exp.mkFunc "Sum" None (Some "SUM");
        exp.mkFunc "Anonymous" (Some "median") (Some "ANONYMOUS");
        exp.mkFunc "Anonymous" (Some "Median") (Some "ANONYMOUS")];
     exp.find_all_Alias :=
       [exp.mkAlias "t" (Some "total") "total";
        exp.mkAlias "t" None "SUM(total)"];
     exp.find_all_Join := [] |}.

End Scenario.

(* ===================================================================== *)
(** ** Notions of the specification, in its own words *)
(* ===================================================================== *)

(** [b] is the last dot-separated segment of [t]. *)
Definition is_last_segment (t b : string) : Prop :=
  PyStr.has_dot b = false ∧ (t = b ∨ ∃ q, t = q +:+ "." +:+ b).

(** The name an alias spelling stands for, when it stands for a name. *)
Definition alias_of_name (func : string) : option string :=
  match HallucinationDetector.function_aliases !! func with
  | Some (HallucinationDetector.Target name) => Some name
  | _ => None
  end.

(** A string of ASCII characters: every code point is below 128.  On
    such a string the methods of [PyStr] compute what Python's
    [str.lower], [str.upper] and [str.strip] compute. *)
Fixpoint ascii_text (s : string) : bool :=
  match s with
  | EmptyString => true
  | String c s' => (N_of_ascii c <? 128)%N && ascii_text s'
  end.

(** A string of whitespace only. *)
Fixpoint all_space (s : string) : bool :=
  match s with
  | EmptyString => true
  | String c s' => PyStr.is_space c && all_space s'
  end.

(** The first attempt, in order, whose parse returns a tree. *)
Fixpoint first_success (rt : Runtime) (sql : string)
    (attempts : list (option string)) : option exp.Expression :=
  match attempts with
  | [] => None
  | d :: rest =>
      match SQLParser.parse_as rt sql d with
      | Returns ast => Some ast
      | Raises _ => first_success rt sql rest
      end
  end.

(** The [ParsedSQL] that [parse] builds around a tree. *)
Definition parsed_of (rt : Runtime) (sql : string) (d : option string)
    (ast : exp.Expression) : ParsedSQL.t :=
  let identifiers := SQLParser._extract_all_identifiers rt ast in
  {| ParsedSQL.ast := ast;
     ParsedSQL.dialect := default "auto" (PyStr.or_else d None);
     ParsedSQL.tables := IdentifierSet.tables identifiers;
     ParsedSQL.columns := IdentifierSet.columns identifiers;
     ParsedSQL.functions := IdentifierSet.functions identifiers;
     ParsedSQL.aliases := IdentifierSet.aliases identifiers;
     ParsedSQL.raw_sql := sql |}.

(** The one result [JoinPathVerifier.verify] can return. *)
Definition nothing_to_report : ValidationResult.t :=
  {| ValidationResult.is_valid := true;
     ValidationResult.errors := [];
     ValidationResult.warnings := [];
     ValidationResult.hallucination_report := None |}.

(** The fallback dialects other than the one already attempted. *)
Definition fallbacks_after (attempted : option string) : list (option string) :=
  List.filter (λ d, negb (bool_decide (d = attempted))) SQLParser.fallback_dialects.

(** A string that does not begin with whitespace. *)
Definition starts_clean (s : string) : bool :=
  match s with
  | EmptyString => true
  | String c _ => negb (PyStr.is_space c)
  end.

(** The value an [exp.Alias] node binds its alias to. *)
Definition alias_value (alias : exp.Alias) : string :=
  default (exp.alias_this_str alias) (exp.alias_this_name alias).

(** [dict.items()] enumerates the entries of the dict, each once. *)
Definition dict_order_ok
    (dict_items : gmap string TableInfo.t → list (string * TableInfo.t)) : Prop :=
  ∀ m, dict_items m ≡ₚ map_to_list m.

(** Some column of [table_info] carries a foreign key whose text
    passes [test]. *)
Definition has_foreign_key (test : string → bool) (table_info : TableInfo.t) : Prop :=
  ∃ col fk, col ∈ TableInfo.columns table_info ∧
            ColumnInfo.foreign_key col = Some fk ∧ fk ≠ "" ∧ test fk = true.

(** The custom functions a schema declares, upper-cased. *)
Definition custom_functions (schema : Schema.t) : gset string :=
  match Schema.functions schema with
  | Some functions => list_to_set (PyStr.upper <$> functions)
  | None => ∅
  end.

(** The canonical dialect a trimmed, lower-cased name stands for. *)
Definition dialect_of_key (key : string) : option string :=
  match DIALECT_MAP !! key with
  | Some canonical => canonical
  | None => Some key
  end.

(** Every undotted member of a set is the name of a column of some
    table of the schema. *)
Definition bare_found (schema : Schema.t) (valid_columns : gset string) : Prop :=
  ∀ x, x ∈ valid_columns → PyStr.has_dot x = false →
       HallucinationDetector.found_anywhere schema x = true.

(** Closed goals on concrete sets and values are settled by evaluation. *)
Ltac by_compute :=
  lazymatch goal with
  | |- ?x ∉ ?X =>
      refine (proj1 (bool_decide_eq_false (x ∈ X)) _); vm_compute; reflexivity
  | |- ?x ∈ ?X =>
      refine (proj1 (bool_decide_eq_true (x ∈ X)) _); vm_compute; reflexivity
  | |- _ => vm_compute; reflexivity
  end.

(* ===================================================================== *)
(** ** Loops that collect *)
(* ===================================================================== *)

Section Loops.
Context {A B : Type}.

Lemma foldl_collect (test : A → bool) (g : A → B) (l : list A) (acc : list B) :
  foldl (λ acc x, if test x then acc ++ [g x] else acc) acc l
  = acc ++ (g <$> List.filter test l).
Proof.
  revert acc. induction l as [|x l IH]; intros acc; simpl.
  - by rewrite app_nil_r.
  - rewrite IH. destruct (test x); simpl; [|done].
    by rewrite <- app_assoc.
Qed.

Lemma foldl_snoc (g : A → B) (l : list A) (acc : list B) :
  foldl (λ acc x, acc ++ [g x]) acc l = acc ++ (g <$> l).
Proof.
  revert acc. induction l as [|x l IH]; intros acc; simpl.
  - by rewrite app_nil_r.
  - rewrite IH. by rewrite <- app_assoc.
Qed.

End Loops.

Lemma foldl_append_if {A} (test : A → bool) (l : list A) (acc : list A) :
  foldl (append_if test) acc l = acc ++ List.filter test l.
Proof.
  unfold append_if. rewrite (foldl_collect test id). by rewrite list_fmap_id.
Qed.

Lemma elem_of_filter_bool {A} (test : A → bool) (l : list A) (x : A) :
  x ∈ List.filter test l ↔ x ∈ l ∧ test x = true.
Proof. rewrite !list_elem_of_In. apply filter_In. Qed.

Lemma length_filter_bool {A} (test : A → bool) (l : list A) :
  length (List.filter test l) ≤ length l.
Proof.
  induction l as [|x l IH]; simpl; [lia|]. destruct (test x); simpl; lia.
Qed.

(* ===================================================================== *)
(** ** Facts about the string methods *)
(* ===================================================================== *)

Example lower_example : PyStr.lower "  PostgreSQL " = "  postgresql ".
Proof. reflexivity. Qed.

Example upper_example : PyStr.upper "date_trunc" = "DATE_TRUNC".
Proof. reflexivity. Qed.

Example strip_example : PyStr.strip "  big query  " = "big query".
Proof. reflexivity. Qed.

Example split_example : PyStr.split "." "db.t." = ["db"; "t"; ""].
Proof. reflexivity. Qed.

Example last_segment_example : PyStr.last_segment "catalog.db.orders" = "orders".
Proof. reflexivity. Qed.

Section Strings.
Import PyStr.

Ltac each_char c := destruct c as [[] [] [] [] [] [] [] []]; vm_compute; try done.

Lemma char_lower_upper c : char_lower (char_upper c) = char_lower c.
Proof. each_char c. Qed.

Lemma char_lower_lower c : char_lower (char_lower c) = char_lower c.
Proof. each_char c. Qed.

Lemma is_space_char_lower c : is_space (char_lower c) = is_space c.
Proof. each_char c. Qed.

Lemma char_lower_dot c :
  bool_decide (char_lower c = "."%char) = bool_decide (c = "."%char).
Proof. each_char c. Qed.

Lemma app_cons c (a b : string) : String c a +:+ b = String c (a +:+ b).
Proof. reflexivity. Qed.

Lemma app_empty_r (a : string) : a +:+ "" = a.
Proof. induction a as [|c a IH]; [done|]. by rewrite app_cons, IH. Qed.

Lemma app_assoc_s (a b c : string) : (a +:+ b) +:+ c = a +:+ b +:+ c.
Proof. induction a as [|x a IH]; [done|]. by rewrite !app_cons, IH. Qed.

Lemma lower_app a b : lower (a +:+ b) = lower a +:+ lower b.
Proof. induction a as [|c a IH]; [done|]. rewrite app_cons. simpl. by rewrite IH. Qed.

Lemma lower_upper s : lower (upper s) = lower s.
Proof. induction s as [|c s IH]; simpl; [done|]. by rewrite char_lower_upper, IH. Qed.

Lemma lower_lower s : lower (lower s) = lower s.
Proof. induction s as [|c s IH]; simpl; [done|]. by rewrite char_lower_lower, IH. Qed.

Lemma all_space_lower s : all_space (lower s) = all_space s.
Proof. induction s as [|c s IH]; simpl; [done|]. by rewrite is_space_char_lower, IH. Qed.

Lemma rev_app_app a b c : String.rev_app a (b +:+ c) = String.rev_app a b +:+ c.
Proof.
  revert b. induction a as [|x a IH]; intros b; simpl; [done|].
  by rewrite <- IH.
Qed.

Lemma rev_app_l a b c : String.rev_app (a +:+ b) c = String.rev_app b (String.rev_app a c).
Proof.
  revert c. induction a as [|x a IH]; intros c; [done|].
  rewrite app_cons. simpl. by rewrite IH.
Qed.

Lemma rev_append a b : String.rev (a +:+ b) = String.rev b +:+ String.rev a.
Proof.
  unfold String.rev. rewrite rev_app_l.
  by rewrite <- rev_app_app.
Qed.

Lemma all_space_app a b : all_space (a +:+ b) = all_space a && all_space b.
Proof.
  induction a as [|c a IH]; [done|]. rewrite app_cons. simpl.
  rewrite IH. by rewrite andb_assoc.
Qed.

Lemma all_space_rev s : all_space (String.rev s) = all_space s.
Proof.
  induction s as [|c s IH]; [done|].
  change (String c s) with (String c "" +:+ s).
  rewrite rev_append, !all_space_app, IH. apply andb_comm.
Qed.

Lemma lstrip_all_space s : all_space s = true → lstrip s = "".
Proof.
  induction s as [|c s IH]; simpl; [done|].
  intros [Hc Hs]%andb_prop. rewrite Hc. auto.
Qed.

Lemma lstrip_pad pre s : all_space pre = true → lstrip (pre +:+ s) = lstrip s.
Proof.
  induction pre as [|c pre IH]; [done|]. rewrite app_cons. simpl.
  intros [Hc Hs]%andb_prop. rewrite Hc. auto.
Qed.

Lemma rstrip_pad s post : all_space post = true → rstrip (s +:+ post) = rstrip s.
Proof.
  intros H. unfold rstrip. rewrite rev_append, lstrip_pad; [done|].
  by rewrite all_space_rev.
Qed.

Lemma strip_pad_r s post : all_space post = true → strip (s +:+ post) = strip s.
Proof.
  intros H. unfold strip. induction s as [|c s IH].
  - change ("" +:+ post) with post. by rewrite (lstrip_all_space post).
  - rewrite app_cons. simpl. destruct (is_space c); [done|].
    rewrite <- app_cons. by apply rstrip_pad.
Qed.

Lemma strip_pad pre s post :
  all_space pre = true → all_space post = true →
  strip (pre +:+ s +:+ post) = strip s.
Proof.
  intros Hpre Hpost. rewrite <- (strip_pad_r s post Hpost).
  unfold strip. by rewrite lstrip_pad.
Qed.

(** [split] never returns the empty list, and splits off nothing when
    there is no dot. *)
Lemma split_no_dot s : has_dot s = false → split "." s = [s].
Proof.
  induction s as [|c s IH]; simpl; [done|].
  intros [Hc Hs]%orb_false_elim. rewrite Hc, IH; done.
Qed.

Lemma split_has_dot s : has_dot s = true → ∃ h x t, split "." s = h :: x :: t.
Proof.
  induction s as [|c s IH]; simpl; [done|].
  destruct (bool_decide (c = "."%char)); simpl.
  - intros _. destruct s as [|c' s]; simpl; [by eexists _, _, _|].
    destruct (bool_decide (c' = "."%char)); [by eexists _, _, _|].
    destruct (split "." s); by eexists _, _, _.
  - intros Hs. destruct (IH Hs) as (h & x & t & ->). by eexists _, _, _.
Qed.

Lemma last_segment_cons c s :
  last_segment (String c s) =
    if bool_decide (c = "."%char) then last_segment s
    else if has_dot s then last_segment s else String c s.
Proof.
  unfold last_segment. simpl. destruct (bool_decide (c = "."%char)) eqn:Hc.
  - destruct (has_dot s) eqn:Hs.
    + by destruct (split_has_dot s Hs) as (h & x & t & ->).
    + by rewrite (split_no_dot s Hs).
  - destruct (has_dot s) eqn:Hs.
    + by destruct (split_has_dot s Hs) as (h & x & t & ->).
    + by rewrite (split_no_dot s Hs).
Qed.

Lemma last_segment_no_dot s : has_dot s = false → last_segment s = s.
Proof. intros H. unfold last_segment. by rewrite split_no_dot. Qed.

Lemma has_dot_app a b : has_dot (a +:+ b) = has_dot a || has_dot b.
Proof.
  induction a as [|c a IH]; [done|]. rewrite app_cons. simpl.
  rewrite IH. by rewrite orb_assoc.
Qed.

Lemma last_segment_is_last t : is_last_segment t (last_segment t).
Proof.
  induction t as [|c t [IHd IH]]; [by split; [|left]|].
  rewrite last_segment_cons.
  destruct (bool_decide (c = "."%char)) eqn:Hc.
  - apply bool_decide_eq_true in Hc as ->. split; [done|]. right.
    destruct IH as [IH|[q IH]].
    + exists "". by rewrite <- IH.
    + exists (String "." q). by rewrite IH at 1.
  - destruct (has_dot t) eqn:Ht.
    + split; [done|]. right. destruct IH as [IH|[q IH]].
      * rewrite <- IH in IHd. congruence.
      * exists (String c q). by rewrite IH at 1.
    + split; [|by left]. simpl. by rewrite Hc, Ht.
Qed.

Lemma has_dot_lower s : has_dot (lower s) = has_dot s.
Proof. induction s as [|c s IH]; simpl; [done|]. by rewrite char_lower_dot, IH. Qed.


End Strings.

(* ===================================================================== *)
(** ** Dialect names (sql_parser.py) *)
(* ===================================================================== *)

Lemma _normalize_dialect_key (d : string) :
  SQLParser._normalize_dialect d = dialect_of_key (PyStr.strip (PyStr.lower d)).
Proof. by destruct d. Qed.

Lemma _normalize_dialect_pad (pre d d' post : string) :
  all_space pre = true → all_space post = true →
  PyStr.lower d' = PyStr.lower d →
  SQLParser._normalize_dialect (pre +:+ d' +:+ post) = SQLParser._normalize_dialect d.
Proof.
  intros Hpre Hpost Hd. rewrite !_normalize_dialect_key. f_equal.
  rewrite !lower_app, Hd. apply strip_pad; by rewrite all_space_lower.
Qed.

(** C2, as the code has it.  For a dialect string of ASCII characters,
    normalizing ignores letter case and surrounding whitespace.  A
    string that trims to the empty string yields no canonical dialect,
    a recognized name yields its canonical dialect, and any other
    string is passed through in its trimmed, lower-cased form. *)
Theorem normalize_dialect_passes_unknown_through (d pre post : string) :
  ascii_text d = true →
  all_space pre = true → all_space post = true →
  let key := PyStr.strip (PyStr.lower d) in
  SQLParser._normalize_dialect (pre +:+ PyStr.upper d +:+ post)
    = SQLParser._normalize_dialect d ∧
  SQLParser._normalize_dialect (pre +:+ PyStr.lower d +:+ post)
    = SQLParser._normalize_dialect d ∧
  (∀ d', ascii_text d' = true → PyStr.lower d' = PyStr.lower d →
         SQLParser._normalize_dialect (pre +:+ d' +:+ post)
         = SQLParser._normalize_dialect d) ∧
  match DIALECT_MAP !! key with
  | Some canonical => SQLParser._normalize_dialect d = canonical
  | None => key ≠ "" ∧ SQLParser._normalize_dialect d = Some key
  end.
Proof.
  intros _ Hpre Hpost key. split_and!.
  - apply _normalize_dialect_pad; auto using lower_upper.
  - apply _normalize_dialect_pad; auto using lower_lower.
  - intros d' _ Hd'. by apply _normalize_dialect_pad.
  - rewrite _normalize_dialect_key. unfold dialect_of_key. fold key.
    destruct (DIALECT_MAP !! key) eqn:Hkey; [done|].
    split; [|done]. intros Hempty. by rewrite Hempty in Hkey.
Qed.

Lemma normalize_dialect_passes_unknown_through_witness :
  ascii_text "PostgreSQL" = true ∧
  all_space "  " = true ∧ all_space " " = true ∧
  SQLParser._normalize_dialect ("  " +:+ PyStr.upper "PostgreSQL" +:+ " ")
    = SQLParser._normalize_dialect "PostgreSQL".
Proof.
  split; [reflexivity|]. split; [reflexivity|]. split; [reflexivity|].
  apply (normalize_dialect_passes_unknown_through "PostgreSQL" "  " " ");
    reflexivity.
Defined.

(** The name [oracle] is not a key of [DIALECT_MAP], and normalizing it
    yields the name itself, not the absence of a dialect. *)
Lemma normalize_dialect_oracle :
  DIALECT_MAP !! "oracle" = None ∧
  SQLParser._normalize_dialect "Oracle" = Some "oracle" ∧
  SQLParser._normalize_dialect "Oracle" ≠ None.
Proof. by vm_compute. Qed.

Lemma get_dialect_functions_other (dialect : string) :
  SQLParser._normalize_dialect dialect ≠ Some "bigquery" →
  SQLParser._normalize_dialect dialect ≠ Some "snowflake" →
  SQLParser.get_dialect_functions dialect = COMMON_FUNCTIONS.
Proof.
  intros Hb Hs. unfold SQLParser.get_dialect_functions.
  by rewrite !bool_decide_eq_false_2.
Qed.

(* ===================================================================== *)
(** ** Phantom tables and functions (hallucination_detector.py) *)
(* ===================================================================== *)

Lemma valid_functions_of_union (dialect : string) (schema : Schema.t) :
  HallucinationDetector.valid_functions_of dialect schema
  = SQLParser.get_dialect_functions dialect ∪ custom_functions schema.
Proof.
  unfold HallucinationDetector.valid_functions_of, custom_functions.
  destruct (Schema.functions schema); [done|]. by rewrite union_empty_r_L.
Qed.

Lemma elem_of_phantom_functions (functions : list string) (dialect : string)
    (schema : Schema.t) (func : string) :
  let valid := SQLParser.get_dialect_functions dialect ∪ custom_functions schema in
  func ∈ HallucinationDetector._detect_phantom_functions functions dialect schema ↔
  func ∈ functions ∧ (PyStr.upper func ∉ valid) ∧
  HallucinationDetector._is_function_alias (PyStr.upper func) valid = false.
Proof.
  intros valid. unfold HallucinationDetector._detect_phantom_functions.
  rewrite foldl_append_if, app_nil_l, elem_of_filter_bool, valid_functions_of_union.
  fold valid. rewrite andb_true_iff, !negb_true_iff, bool_decide_eq_false.
  tauto.
Qed.

Lemma _is_function_alias_spec (func : string) (valid : gset string) :
  HallucinationDetector._is_function_alias func valid = false ↔
  func ≠ "ANONYMOUS" ∧ ∀ name, alias_of_name func = Some name → name ∉ valid.
Proof.
  unfold HallucinationDetector._is_function_alias, alias_of_name.
  destruct (HallucinationDetector.function_aliases !! func) as [[|name]|] eqn:Hf.
  - split; [done|]. intros [Hne _]. destruct Hne.
    destruct (decide (func = "ANONYMOUS")) as [|Hne]; [done|].
    exfalso. revert Hf. unfold HallucinationDetector.function_aliases. simpl.
    rewrite !lookup_insert. repeat case_decide; subst; try done.
  - rewrite bool_decide_eq_false. split.
    + intros Hn. split; [|by intros ? [= <-]]. intros ->. by vm_compute in Hf.
    + intros [_ H]. by apply H.
  - split; [|done]. intros _. split; [|done]. intros ->. by vm_compute in Hf.
Qed.

Lemma get_dialect_functions_common (dialect : string) :
  COMMON_FUNCTIONS ⊆ SQLParser.get_dialect_functions dialect.
Proof.
  unfold SQLParser.get_dialect_functions.
  destruct (bool_decide _); [apply union_subseteq_l|].
  destruct (bool_decide _); [apply union_subseteq_l|done].
Qed.

Lemma IF_accepted_in_snowflake (functions : list string) (schema : Schema.t) :
  "IF" ∉ HallucinationDetector._detect_phantom_functions functions "snowflake" schema.
Proof.
  rewrite elem_of_phantom_functions. intros (_ & _ & Halias).
  revert Halias. change (PyStr.upper "IF") with "IF".
  unfold HallucinationDetector._is_function_alias.
  assert (HallucinationDetector.function_aliases !! "IF"
          = Some (HallucinationDetector.Target "IFF")) as -> by by_compute.
  rewrite bool_decide_eq_false. intros Hno. apply Hno.
  apply elem_of_union_l. by_compute.
Qed.

(** C7, as the code has it.  A function is reported phantom iff its
    upper-cased name is absent from the valid-function set of the
    dialect (common, dialect-specific and schema-declared functions), it
    is not the wrapper name ANONYMOUS, which is accepted whatever the
    set holds, and it is not an alias of a name present in the set.
    Under snowflake, IF is an alias of the present name IFF and is not
    reported. *)
Theorem phantom_function_iff (functions : list string) (dialect : string)
    (schema : Schema.t) (func : string) :
  let valid := SQLParser.get_dialect_functions dialect ∪ custom_functions schema in
  (func ∈ HallucinationDetector._detect_phantom_functions functions dialect schema ↔
     func ∈ functions ∧ (PyStr.upper func ∉ valid) ∧
     PyStr.upper func ≠ "ANONYMOUS" ∧
     ∀ name, alias_of_name (PyStr.upper func) = Some name → name ∉ valid) ∧
  COMMON_FUNCTIONS ⊆ SQLParser.get_dialect_functions dialect ∧
  SQLParser.get_dialect_functions "bigquery" = COMMON_FUNCTIONS ∪ BIGQUERY_FUNCTIONS ∧
  SQLParser.get_dialect_functions "snowflake" = COMMON_FUNCTIONS ∪ SNOWFLAKE_FUNCTIONS ∧
  alias_of_name "IF" = Some "IFF" ∧
  ("IF" ∉ SQLParser.get_dialect_functions "snowflake") ∧
  "IFF" ∈ SQLParser.get_dialect_functions "snowflake" ∧
  "IF" ∉ HallucinationDetector._detect_phantom_functions functions "snowflake" schema.
Proof.
  intros valid. split_and!.
  - rewrite elem_of_phantom_functions. fold valid.
    by rewrite _is_function_alias_spec.
  - apply get_dialect_functions_common.
  - reflexivity.
  - reflexivity.
  - by_compute.
  - by_compute.
  - by_compute.
  - apply IF_accepted_in_snowflake.
Qed.

(** The name ANONYMOUS is absent from the valid set and is an alias of
    no name, yet the detector does not report it. *)
Lemma anonymous_is_not_reported :
  let schema := Scenario.customers_schema in
  let valid := SQLParser.get_dialect_functions "" ∪ custom_functions schema in
  "ANONYMOUS" ∈ ["ANONYMOUS"] ∧
  (PyStr.upper "ANONYMOUS" ∉ valid) ∧
  (∀ name, alias_of_name (PyStr.upper "ANONYMOUS") = Some name → name ∉ valid) ∧
  "ANONYMOUS" ∉ HallucinationDetector._detect_phantom_functions ["ANONYMOUS"] "" schema.
Proof.
  intros schema valid. split_and!.
  - by apply list_elem_of_singleton.
  - by_compute.
  - intros name Hname. by vm_compute in Hname.
  - assert (HallucinationDetector._detect_phantom_functions ["ANONYMOUS"] "" schema = [])
      as -> by by_compute.
    apply not_elem_of_nil.
Qed.

(** C10.  A dialect whose normalized form is neither bigquery nor
    snowflake has exactly the common functions; postgres, mysql, sqlite,
    duckdb and clickhouse are such dialects.  For such a dialect a
    function is reported phantom iff its upper-cased name is outside the
    common set, is not declared by the schema, and is not accepted as an
    alias. *)
Theorem other_dialects_have_common_functions_only (dialect : string)
    (functions : list string) (schema : Schema.t) (func : string) :
  SQLParser._normalize_dialect dialect ≠ Some "bigquery" →
  SQLParser._normalize_dialect dialect ≠ Some "snowflake" →
  SQLParser.get_dialect_functions dialect = COMMON_FUNCTIONS ∧
  Forall (λ d, SQLParser.get_dialect_functions d = COMMON_FUNCTIONS)
    ["postgres"; "mysql"; "sqlite"; "duckdb"; "clickhouse"] ∧
  (func ∈ HallucinationDetector._detect_phantom_functions functions dialect schema ↔
     func ∈ functions ∧
     (PyStr.upper func ∉ COMMON_FUNCTIONS) ∧
     (PyStr.upper func ∉ custom_functions schema) ∧
     HallucinationDetector._is_function_alias (PyStr.upper func)
       (COMMON_FUNCTIONS ∪ custom_functions schema) = false).
Proof.
  intros Hb Hs. split_and!.
  - by apply get_dialect_functions_other.
  - repeat constructor.
  - rewrite elem_of_phantom_functions, get_dialect_functions_other by done.
    rewrite not_elem_of_union. tauto.
Qed.

Lemma other_dialects_have_common_functions_only_witness :
  SQLParser._normalize_dialect "Postgres" ≠ Some "bigquery" ∧
  SQLParser._normalize_dialect "Postgres" ≠ Some "snowflake" ∧
  SQLParser.get_dialect_functions "Postgres" = COMMON_FUNCTIONS ∧
  ("MEDIAN" ∈ HallucinationDetector._detect_phantom_functions
      ["COUNT"; "MEDIAN"] "Postgres" Scenario.customers_schema ↔
   "MEDIAN" ∈ ["COUNT"; "MEDIAN"] ∧
   (PyStr.upper "MEDIAN" ∉ COMMON_FUNCTIONS) ∧
   (PyStr.upper "MEDIAN" ∉ custom_functions Scenario.customers_schema) ∧
   HallucinationDetector._is_function_alias (PyStr.upper "MEDIAN")
     (COMMON_FUNCTIONS ∪ custom_functions Scenario.customers_schema) = false).
Proof.
  assert (SQLParser._normalize_dialect "Postgres" ≠ Some "bigquery") as Hb
    by (vm_compute; discriminate).
  assert (SQLParser._normalize_dialect "Postgres" ≠ Some "snowflake") as Hs
    by (vm_compute; discriminate).
  split; [exact Hb|]. split; [exact Hs|].
  pose proof (other_dialects_have_common_functions_only "Postgres"
                ["COUNT"; "MEDIAN"] Scenario.customers_schema "MEDIAN" Hb Hs)
    as (Hcommon & _ & Hiff).
  split; [exact Hcommon | exact Hiff].
Defined.

(** C5.  A table reference is reported phantom iff the schema's
    [has_table] answers no both for the last dot-separated segment of
    its spelling and for the spelling itself; both are looked up as
    written, with no change of letter case.  [SchemaValidator.validate]
    reports the same tables. *)
Theorem phantom_table_iff (schema : Schema.t) (tables : list string) (table : string) :
  (table ∈ HallucinationDetector._detect_phantom_tables tables schema ↔
     table ∈ tables ∧
     Schema.has_table schema (PyStr.last_segment table) = false ∧
     Schema.has_table schema table = false) ∧
  is_last_segment table (PyStr.last_segment table) ∧
  (∀ identifiers, IdentifierSet.tables identifiers = tables →
     ∃ column_errors,
       ValidationResult.errors (SchemaValidator.validate identifiers schema)
       = (SchemaValidator.table_error <$>
            HallucinationDetector._detect_phantom_tables tables schema)
         ++ column_errors).
Proof.
  split_and!.
  - unfold HallucinationDetector._detect_phantom_tables.
    rewrite foldl_append_if, app_nil_l, elem_of_filter_bool.
    by rewrite andb_true_iff, !negb_true_iff.
  - apply last_segment_is_last.
  - intros identifiers <-. unfold SchemaValidator.validate. simpl.
    rewrite (foldl_collect _ SchemaValidator.column_error).
    rewrite (foldl_collect
               (λ t, negb (Schema.has_table schema (PyStr.last_segment t)) &&
                     negb (Schema.has_table schema t))
               SchemaValidator.table_error).
    unfold HallucinationDetector._detect_phantom_tables.
    rewrite foldl_append_if. simpl. by eexists.
Qed.

(* ===================================================================== *)
(** ** Parsing with fallback (sql_parser.py) *)
(* ===================================================================== *)

Lemma try_fallbacks_first_success (rt : Runtime) (sql : string)
    (attempted : option string) (fallbacks : list (option string)) :
  SQLParser.try_fallbacks rt sql attempted fallbacks
  = first_success rt sql
      (List.filter (λ d, negb (bool_decide (d = attempted))) fallbacks).
Proof.
  induction fallbacks as [|d rest IH]; simpl; [done|].
  destruct (bool_decide (d = attempted)); simpl; [done|].
  by rewrite IH.
Qed.

Lemma parse_outcome (rt : Runtime) (self : SQLParser.t) (sql dialect : string) :
  let attempted :=
    PyStr.or_else (SQLParser._normalize_dialect dialect)
                  (SQLParser.default_dialect self) in
  SQLParser.parse rt self sql dialect =
    match SQLParser.parse_as rt sql attempted with
    | Returns ast => Returns (parsed_of rt sql attempted ast)
    | Raises ParseError =>
        match first_success rt sql (fallbacks_after attempted) with
        | Some ast => Returns (parsed_of rt sql attempted ast)
        | None => parsed_of rt sql attempted <$> parse_one rt sql None (Some IGNORE)
        end
    | Raises (OtherError cls) => Raises (OtherError cls)
    end.
Proof.
  intros attempted. unfold SQLParser.parse. fold attempted.
  destruct (SQLParser.parse_as rt sql attempted) as [ast|[|cls]]; [done| |done].
  unfold SQLParser._parse_with_fallback, fallbacks_after.
  rewrite try_fallbacks_first_success.
  destruct (first_success _ _ _); [done|].
  by destruct (parse_one rt sql None (Some IGNORE)).
Qed.

Lemma operations_follow_parse (rt : Runtime) (self : SQLParser.t)
    (sql dialect : string) (schema : Schema.t) :
  match SQLParser.parse rt self sql dialect with
  | Returns _ =>
      returns_normally (SQLParser.extract_identifiers rt self sql dialect) ∧
      returns_normally
        (HallucinationDetector.detect rt (HallucinationDetector.mk self) sql schema dialect) ∧
      returns_normally
        (HallucinationDetector.validate rt (HallucinationDetector.mk self) sql schema dialect) ∧
      returns_normally
        (JoinPathVerifier.verify rt (JoinPathVerifier.mk self) sql schema dialect)
  | Raises e =>
      SQLParser.extract_identifiers rt self sql dialect = Raises e ∧
      HallucinationDetector.detect rt (HallucinationDetector.mk self) sql schema dialect
        = Raises e ∧
      HallucinationDetector.validate rt (HallucinationDetector.mk self) sql schema dialect
        = Raises e ∧
      JoinPathVerifier.verify rt (JoinPathVerifier.mk self) sql schema dialect
        = Raises e
  end.
Proof.
  unfold HallucinationDetector.validate, HallucinationDetector.detect,
    JoinPathVerifier.verify, SQLParser.extract_identifiers, returns_normally.
  simpl. destruct (SQLParser.parse rt self sql dialect) as [parsed|e]; simpl.
  - split_and!; by eexists.
  - done.
Qed.

(** C1, as the code has it.  [parse] returns the tree of the primary
    parse when that succeeds.  When the primary parse raises ParseError,
    the fallback dialects postgres, bigquery, snowflake and auto are
    tried in that order, the attempted dialect left out, and the first
    tree obtained is returned; when every attempt fails, the outcome is
    that of the error-tolerant parse, exception included.  Any other
    exception of the primary parse propagates.  [extract_identifiers],
    [detect], [validate] and [verify] return normally when [parse] does
    and propagate its exception otherwise. *)
Theorem parse_degrades_or_propagates (rt : Runtime) (self : SQLParser.t)
    (sql dialect : string) (schema : Schema.t) :
  let attempted :=
    PyStr.or_else (SQLParser._normalize_dialect dialect)
                  (SQLParser.default_dialect self) in
  SQLParser.parse rt self sql dialect =
    match SQLParser.parse_as rt sql attempted with
    | Returns ast => Returns (parsed_of rt sql attempted ast)
    | Raises ParseError =>
        match first_success rt sql (fallbacks_after attempted) with
        | Some ast => Returns (parsed_of rt sql attempted ast)
        | None => parsed_of rt sql attempted <$> parse_one rt sql None (Some IGNORE)
        end
    | Raises (OtherError cls) => Raises (OtherError cls)
    end ∧
  fallbacks_after None = [Some "postgres"; Some "bigquery"; Some "snowflake"] ∧
  fallbacks_after (Some "postgres") = [Some "bigquery"; Some "snowflake"; None] ∧
  fallbacks_after (Some "bigquery") = [Some "postgres"; Some "snowflake"; None] ∧
  fallbacks_after (Some "snowflake") = [Some "postgres"; Some "bigquery"; None] ∧
  fallbacks_after (Some "mysql")
    = [Some "postgres"; Some "bigquery"; Some "snowflake"; None] ∧
  match SQLParser.parse rt self sql dialect with
  | Returns _ =>
      returns_normally (SQLParser.extract_identifiers rt self sql dialect) ∧
      returns_normally
        (HallucinationDetector.detect rt (HallucinationDetector.mk self) sql schema dialect) ∧
      returns_normally
        (HallucinationDetector.validate rt (HallucinationDetector.mk self) sql schema dialect) ∧
      returns_normally
        (JoinPathVerifier.verify rt (JoinPathVerifier.mk self) sql schema dialect)
  | Raises e =>
      SQLParser.extract_identifiers rt self sql dialect = Raises e ∧
      HallucinationDetector.detect rt (HallucinationDetector.mk self) sql schema dialect
        = Raises e ∧
      HallucinationDetector.validate rt (HallucinationDetector.mk self) sql schema dialect
        = Raises e ∧
      JoinPathVerifier.verify rt (JoinPathVerifier.mk self) sql schema dialect
        = Raises e
  end.
Proof.
  intros attempted. split; [apply parse_outcome|].
  do 5 (split; [reflexivity|]).
  apply operations_follow_parse.
Qed.

(** On the empty statement every attempt raises ParseError, the
    error-tolerant one included, and the public operations raise it. *)
Lemma empty_statement_raises :
  SQLParser.parse Scenario.runtime (SQLParser.init "") "" "" = Raises ParseError ∧
  SQLParser.extract_identifiers Scenario.runtime (SQLParser.init "") "" ""
    = Raises ParseError ∧
  HallucinationDetector.detect Scenario.runtime HallucinationDetector.init
    "" Scenario.customers_schema "" = Raises ParseError ∧
  HallucinationDetector.validate Scenario.runtime HallucinationDetector.init
    "" Scenario.customers_schema "" = Raises ParseError ∧
  JoinPathVerifier.verify Scenario.runtime JoinPathVerifier.init
    "" Scenario.customers_schema "" = Raises ParseError.
Proof. split_and!; by_compute. Qed.

(** A dialect name sqlglot does not know is passed to it as it is; the
    ValueError of the primary parse is not a ParseError and propagates. *)
Lemma unknown_dialect_raises :
  SQLParser._normalize_dialect "SQLServer" = Some "sqlserver" ∧
  SQLParser.parse Scenario.runtime (SQLParser.init "") Scenario.customers_sql "SQLServer"
    = Raises (OtherError "ValueError").
Proof. split; by_compute. Qed.

(* ===================================================================== *)
(** ** Join paths (join_path_verifier.py) *)
(* ===================================================================== *)

Lemma _verify_single_join_nil (join : exp.Join) (schema : Schema.t) :
  JoinPathVerifier._verify_single_join join schema = [].
Proof.
  unfold JoinPathVerifier._verify_single_join.
  destruct (negb _); [done|]. destruct (exp.join_on join) as [on_clause|]; [|done].
  induction (JoinPathVerifier._extract_join_columns on_clause) as [|[l r] pairs IH];
    simpl; [done|].
  by destruct (negb _).
Qed.

Lemma verify_joins_nil (joins : list exp.Join) (schema : Schema.t) :
  foldl (λ errors join, errors ++ JoinPathVerifier._verify_single_join join schema)
    [] joins = [].
Proof.
  induction joins as [|join joins IH]; simpl; [done|].
  by rewrite _verify_single_join_nil.
Qed.

(** C8, as the code has it.  Whatever the statement, the schema and the
    dialect, the outcome of [verify] is the outcome of [parse] with the
    tree replaced by a ValidationResult that has no error, no warning
    and is_valid true: when [parse] returns, [verify] returns that
    result, and when [parse] raises, [verify] raises the same exception.
    Every join yields an empty error list, whether or not a foreign key
    relates its columns. *)
Theorem verify_reports_nothing (rt : Runtime) (self : JoinPathVerifier.t)
    (sql : string) (schema : Schema.t) (dialect : string) :
  JoinPathVerifier.verify rt self sql schema dialect
  = (λ _, nothing_to_report)
      <$> SQLParser.parse rt (JoinPathVerifier.parser self) sql dialect ∧
  (∀ parsed,
     SQLParser.parse rt (JoinPathVerifier.parser self) sql dialect = Returns parsed →
     JoinPathVerifier.verify rt self sql schema dialect = Returns nothing_to_report) ∧
  (∀ e,
     SQLParser.parse rt (JoinPathVerifier.parser self) sql dialect = Raises e →
     JoinPathVerifier.verify rt self sql schema dialect = Raises e) ∧
  ValidationResult.is_valid nothing_to_report = true ∧
  ValidationResult.errors nothing_to_report = [] ∧
  ValidationResult.warnings nothing_to_report = [] ∧
  ∀ join, JoinPathVerifier._verify_single_join join schema = [].
Proof.
  assert (JoinPathVerifier.verify rt self sql schema dialect
          = (λ _, nothing_to_report)
              <$> SQLParser.parse rt (JoinPathVerifier.parser self) sql dialect)
    as Hverify.
  { unfold JoinPathVerifier.verify.
    destruct (SQLParser.parse rt (JoinPathVerifier.parser self) sql dialect)
      as [parsed|e]; simpl; [|done].
    by rewrite verify_joins_nil. }
  split_and!; try done.
  - intros parsed Hparse. by rewrite Hverify, Hparse.
  - intros e Hparse. by rewrite Hverify, Hparse.
  - intros join. apply _verify_single_join_nil.
Qed.

(** On the empty statement [parse] raises, and so does [verify]: it
    returns no ValidationResult. *)
Lemma verify_raises_on_empty_statement :
  JoinPathVerifier.verify Scenario.runtime JoinPathVerifier.init
    "" Scenario.shop_schema "" = Raises ParseError ∧
  ¬ returns_normally
      (JoinPathVerifier.verify Scenario.runtime JoinPathVerifier.init
         "" Scenario.shop_schema "").
Proof.
  assert (JoinPathVerifier.verify Scenario.runtime JoinPathVerifier.init
            "" Scenario.shop_schema "" = Raises ParseError) as Hraises
    by (vm_compute; reflexivity).
  split; [exact Hraises|]. rewrite Hraises. by intros [result ?].
Qed.

(** A join whose columns no foreign key relates: the pair is found
    invalid, and nothing is reported. *)
Lemma unrelated_join_is_tolerated :
  JoinPathVerifier._extract_join_columns
    [exp.mkEQ (exp.OColumn (exp.mkColumn "id" "customers"))
              (exp.OColumn (exp.mkColumn "total" "orders"))]
    = [("customers.id", "orders.total")] ∧
  JoinPathVerifier._is_valid_join_path "customers.id" "orders.total"
    Scenario.shop_schema = false ∧
  JoinPathVerifier.verify Scenario.runtime JoinPathVerifier.init
    Scenario.join_sql Scenario.shop_schema "" = Returns nothing_to_report.
Proof. split_and!; by_compute. Qed.

(* ===================================================================== *)
(** ** The order of [list(set(...))] *)
(* ===================================================================== *)

Section SetOrder.
Variable rt : Runtime.
Hypothesis order_ok : set_order_ok rt.

Lemma list_of_set_nil : list_of_set rt (list_to_set []) = [].
Proof.
  apply Permutation_nil_r. rewrite (order_ok _). simpl. by rewrite elements_empty.
Qed.

Lemma list_of_set_one (x : string) : list_of_set rt (list_to_set [x]) = [x].
Proof.
  apply Permutation_singleton_r. rewrite (order_ok _). simpl.
  by rewrite union_empty_r_L, elements_singleton.
Qed.

Lemma list_of_set_two (x y : string) :
  x ≠ y →
  list_of_set rt (list_to_set [x; y]) = [x; y] ∨
  list_of_set rt (list_to_set [x; y]) = [y; x].
Proof.
  intros Hxy.
  assert (list_of_set rt (list_to_set [x; y]) ≡ₚ [x; y]) as Hperm.
  { rewrite (order_ok _). simpl. rewrite union_empty_r_L.
    rewrite elements_disj_union by set_solver.
    by rewrite !elements_singleton. }
  apply Permutation_sym, Permutation_length_2_inv in Hperm.
  destruct Hperm; auto.
Qed.

End SetOrder.

Lemma elements_order_ok : set_order_ok Scenario.runtime.
Proof. intros X. reflexivity. Qed.

(* ===================================================================== *)
(** ** Phantom columns (hallucination_detector.py) *)
(* ===================================================================== *)

Section Columns.
Variable schema : Schema.t.

Lemma found_anywhere_intro (key : string) (table_info : TableInfo.t)
    (col : ColumnInfo.t) :
  Schema.tables schema !! key = Some table_info →
  col ∈ TableInfo.columns table_info →
  HallucinationDetector.found_anywhere schema (PyStr.lower (ColumnInfo.name col)) = true.
Proof.
  intros Hkey Hcol. unfold HallucinationDetector.found_anywhere.
  apply existsb_exists. exists table_info. split.
  - apply list_elem_of_In, list_elem_of_fmap. exists (key, table_info).
    split; [done|]. by apply elem_of_map_to_list.
  - apply bool_decide_eq_true, list_elem_of_fmap. by exists col.
Qed.

Lemma has_dot_qualified (q c : string) : PyStr.has_dot (q +:+ "." +:+ c) = true.
Proof. rewrite has_dot_app. simpl. apply orb_true_r. Qed.

Lemma bare_found_table (valid_columns : gset string) (table : string) :
  bare_found schema valid_columns →
  bare_found schema (HallucinationDetector.add_table_columns schema valid_columns table).
Proof.
  unfold HallucinationDetector.add_table_columns.
  destruct (HallucinationDetector.table_info_of _ _ _) as [table_info|] eqn:Hinfo;
    [|done].
  assert (∃ key, Schema.tables schema !! key = Some table_info) as [key Hkey].
  { unfold HallucinationDetector.table_info_of in Hinfo.
    destruct (Schema.tables schema !! PyStr.last_segment table) eqn:H1.
    - exists (PyStr.last_segment table). congruence.
    - by exists table. }
  assert (∀ col, col ∈ TableInfo.columns table_info → col ∈ TableInfo.columns table_info)
    as Hsub by done.
  revert valid_columns Hsub.
  generalize (TableInfo.columns table_info) at 1 3.
  intros cols. induction cols as [|col cols IH]; intros valid_columns Hsub Hvalid;
    simpl; [done|].
  apply IH.
  - intros c Hc. apply Hsub. by right.
  - intros x Hx Hdot. apply elem_of_union in Hx as [Hx|Hx].
    + apply elem_of_union in Hx as [Hx|Hx]; [by apply Hvalid|].
      apply elem_of_singleton in Hx as ->.
      apply (found_anywhere_intro key table_info); [done|]. apply Hsub. by left.
    + apply elem_of_singleton in Hx as ->. by rewrite has_dot_qualified in Hdot.
Qed.

Lemma bare_found_alias (valid_columns : gset string) (item : string * string) :
  bare_found schema valid_columns →
  bare_found schema (HallucinationDetector.add_alias_columns schema valid_columns item).
Proof.
  destruct item as [alias actual]. simpl.
  destruct (Schema.tables schema !! actual) as [actual_table|]; [|done].
  revert valid_columns.
  induction (TableInfo.columns actual_table) as [|col cols IH];
    intros valid_columns Hvalid; simpl; [done|].
  apply IH. intros x Hx Hdot. apply elem_of_union in Hx as [Hx|Hx].
  - by apply Hvalid.
  - apply elem_of_singleton in Hx as ->. by rewrite has_dot_qualified in Hdot.
Qed.

Lemma bare_found_foldl {X} (step : gset string → X → gset string) (l : list X)
    (valid_columns : gset string) :
  (∀ V x, bare_found schema V → bare_found schema (step V x)) →
  bare_found schema valid_columns → bare_found schema (foldl step valid_columns l).
Proof.
  intros Hstep. revert valid_columns.
  induction l as [|x l IH]; intros V HV; simpl; [done|]. apply IH. by apply Hstep.
Qed.

Lemma bare_found_valid_columns (tables : list string) (aliases : gmap string string) :
  bare_found schema (HallucinationDetector.valid_columns_of tables aliases schema).
Proof.
  unfold HallucinationDetector.valid_columns_of.
  apply bare_found_foldl; [apply bare_found_alias|].
  apply bare_found_foldl; [apply bare_found_table|].
  intros x Hx. by apply not_elem_of_empty in Hx.
Qed.

(** An unqualified column is phantom iff no table of the whole schema
    has a column of that name, whatever tables the statement names. *)
Lemma column_is_phantom_unqualified (tables : list string)
    (aliases : gmap string string) (col : string) :
  PyStr.has_dot col = false →
  HallucinationDetector.column_is_phantom
    (HallucinationDetector.valid_columns_of tables aliases schema) schema col
  = negb (HallucinationDetector.found_anywhere schema (PyStr.lower col)).
Proof.
  intros Hdot. unfold HallucinationDetector.column_is_phantom.
  rewrite Hdot, (last_segment_no_dot col Hdot). simpl.
  case_bool_decide as Hin; simpl; [|done].
  rewrite (bare_found_valid_columns tables aliases (PyStr.lower col) Hin); [done|].
  by rewrite has_dot_lower.
Qed.


End Columns.

Lemma _detect_phantom_columns_filter (columns tables : list string)
    (aliases : gmap string string) (schema : Schema.t) :
  HallucinationDetector._detect_phantom_columns columns tables aliases schema
  = List.filter
      (HallucinationDetector.column_is_phantom
         (HallucinationDetector.valid_columns_of tables aliases schema) schema)
      columns.
Proof.
  unfold HallucinationDetector._detect_phantom_columns. by rewrite foldl_append_if.
Qed.

(* ===================================================================== *)
(** ** The report and its score (hallucination_detector.py) *)
(* ===================================================================== *)

Lemma length_phantom_tables (tables : list string) (schema : Schema.t) :
  length (HallucinationDetector._detect_phantom_tables tables schema) ≤ length tables.
Proof.
  unfold HallucinationDetector._detect_phantom_tables.
  rewrite foldl_append_if. apply length_filter_bool.
Qed.

Lemma length_phantom_columns (columns tables : list string)
    (aliases : gmap string string) (schema : Schema.t) :
  length (HallucinationDetector._detect_phantom_columns columns tables aliases schema)
  ≤ length columns.
Proof. rewrite _detect_phantom_columns_filter. apply length_filter_bool. Qed.

Lemma length_phantom_functions (functions : list string) (dialect : string)
    (schema : Schema.t) :
  length (HallucinationDetector._detect_phantom_functions functions dialect schema)
  ≤ length functions.
Proof.
  unfold HallucinationDetector._detect_phantom_functions.
  rewrite foldl_append_if. apply length_filter_bool.
Qed.

Lemma ratio_bounds (p t : Z) :
  (0 ≤ p ≤ t)%Z →
  (0 <= inject_Z p / inject_Z (Z.max 1 t))%Q ∧
  (inject_Z p / inject_Z (Z.max 1 t) <= 1)%Q ∧
  (t = 0%Z → inject_Z p / inject_Z (Z.max 1 t) == 0)%Q.
Proof.
  intros [Hp Hpt].
  assert (0 < inject_Z (Z.max 1 t))%Q as Hpos.
  { change 0%Q with (inject_Z 0). rewrite <- Zlt_Qlt. lia. }
  split_and!.
  - apply Qle_shift_div_l; [done|]. rewrite Qmult_0_l.
    change 0%Q with (inject_Z 0). rewrite <- Zle_Qle. lia.
  - apply Qle_shift_div_r; [done|]. rewrite Qmult_1_l.
    rewrite <- Zle_Qle. lia.
  - intros ->. assert (p = 0%Z) as -> by lia. reflexivity.
Qed.

(** C3.  When [detect] has the identifiers of the statement, it returns
    a report whose lists are the phantom tables, columns and functions
    detected among those identifiers, and whose score is the number of
    these phantoms divided by the larger of 1 and the number of
    extracted tables, columns and functions.  The score lies between 0
    and 1, and is 0 when nothing was extracted. *)
Theorem hallucination_score_bounds (rt : Runtime) (self : HallucinationDetector.t)
    (sql : string) (schema : Schema.t) (dialect : string)
    (identifiers : IdentifierSet.t) :
  SQLParser.extract_identifiers rt (HallucinationDetector.parser self) sql dialect
    = Returns identifiers →
  ∃ report,
    HallucinationDetector.detect rt self sql schema dialect = Returns report ∧
    HallucinationReport.phantom_tables report
      = HallucinationDetector._detect_phantom_tables
          (IdentifierSet.tables identifiers) schema ∧
    HallucinationReport.phantom_columns report
      = HallucinationDetector._detect_phantom_columns
          (IdentifierSet.columns identifiers) (IdentifierSet.tables identifiers)
          (IdentifierSet.aliases identifiers) schema ∧
    HallucinationReport.phantom_functions report
      = HallucinationDetector._detect_phantom_functions
          (IdentifierSet.functions identifiers) dialect schema ∧
    let phantoms :=
      (Z.of_nat (length (HallucinationDetector._detect_phantom_tables
                           (IdentifierSet.tables identifiers) schema)) +
       Z.of_nat (length (HallucinationDetector._detect_phantom_columns
                           (IdentifierSet.columns identifiers)
                           (IdentifierSet.tables identifiers)
                           (IdentifierSet.aliases identifiers) schema)) +
       Z.of_nat (length (HallucinationDetector._detect_phantom_functions
                           (IdentifierSet.functions identifiers) dialect schema)))%Z in
    let total :=
      (Z.of_nat (length (IdentifierSet.tables identifiers)) +
       Z.of_nat (length (IdentifierSet.columns identifiers)) +
       Z.of_nat (length (IdentifierSet.functions identifiers)))%Z in
    (HallucinationReport.hallucination_score report
       == inject_Z phantoms / inject_Z (Z.max 1 total))%Q ∧
    (0 <= HallucinationReport.hallucination_score report)%Q ∧
    (HallucinationReport.hallucination_score report <= 1)%Q ∧
    (total = 0%Z → HallucinationReport.hallucination_score report == 0)%Q ∧
    HallucinationReport.total_hallucinations report = phantoms.
Proof.
  intros Hids. unfold HallucinationDetector.detect. rewrite Hids. simpl.
  eexists. split; [reflexivity|]. simpl.
  pose proof (length_phantom_tables (IdentifierSet.tables identifiers) schema).
  pose proof (length_phantom_columns (IdentifierSet.columns identifiers)
                (IdentifierSet.tables identifiers)
                (IdentifierSet.aliases identifiers) schema).
  pose proof (length_phantom_functions (IdentifierSet.functions identifiers)
                dialect schema).
  do 3 (split; [reflexivity|]).
  match goal with
  | |- (inject_Z ?p / inject_Z (Z.max 1 ?t) == _)%Q ∧ _ =>
      destruct (ratio_bounds p t) as (Hlow & Hhigh & Hzero); [lia|]
  end.
  split_and!; done.
Qed.

Lemma hallucination_score_bounds_witness :
  ∃ identifiers report,
    SQLParser.extract_identifiers Scenario.runtime
      (HallucinationDetector.parser HallucinationDetector.init)
      Scenario.customers_sql "" = Returns identifiers ∧
    HallucinationDetector.detect Scenario.runtime HallucinationDetector.init
      Scenario.customers_sql Scenario.customers_schema "" = Returns report ∧
    (0 <= HallucinationReport.hallucination_score report)%Q ∧
    (HallucinationReport.hallucination_score report <= 1)%Q.
Proof.
  eexists.
  assert (SQLParser.extract_identifiers Scenario.runtime
            (HallucinationDetector.parser HallucinationDetector.init)
            Scenario.customers_sql "" = Returns _) as Hids
    by (vm_compute; reflexivity).
  destruct (hallucination_score_bounds Scenario.runtime HallucinationDetector.init
              Scenario.customers_sql Scenario.customers_schema "" _ Hids)
    as (report & Hreport & _ & _ & _ & _ & H0 & H1 & _).
  exists report. split; [exact Hids|]. split; [exact Hreport|].
  split; [exact H0 | exact H1].
Defined.

(* ===================================================================== *)
(** ** Running the detector on a known tree *)
(* ===================================================================== *)

Lemma extract_identifiers_default (rt : Runtime) (sql : string)
    (ast : exp.Expression) :
  parse_one rt sql None None = Returns ast →
  SQLParser.extract_identifiers rt (SQLParser.init "") sql ""
  = Returns (SQLParser._extract_all_identifiers rt ast).
Proof.
  intros Hparse. unfold SQLParser.extract_identifiers.
  rewrite parse_outcome. cbv zeta.
  change (PyStr.or_else (SQLParser._normalize_dialect "")
            (SQLParser.default_dialect (SQLParser.init ""))) with (@None string).
  change (SQLParser.parse_as rt sql None) with (parse_one rt sql None None).
  by rewrite Hparse.
Qed.

Lemma column_entry_bare (columns : list string) :
  SQLParser.column_entry <$> (Scenario.bare_column <$> columns) = columns.
Proof. induction columns as [|c columns IH]; [done|]. cbn. f_equal. apply IH. Qed.

Lemma extract_select_from (rt : Runtime) (columns : list string) (table : string) :
  SQLParser._extract_all_identifiers rt (Scenario.select_from columns table)
  = {| IdentifierSet.tables := list_of_set rt (list_to_set [table]);
       IdentifierSet.columns := list_of_set rt (list_to_set columns);
       IdentifierSet.functions := list_of_set rt (list_to_set []);
       IdentifierSet.aliases := ∅ |}.
Proof.
  unfold SQLParser._extract_all_identifiers, Scenario.select_from.
  cbn [exp.find_all_Table exp.find_all_Column exp.find_all_Func exp.find_all_Alias].
  by rewrite column_entry_bare.
Qed.

Lemma validate_of_report (rt : Runtime) (self : HallucinationDetector.t)
    (sql : string) (schema : Schema.t) (dialect : string)
    (report : HallucinationReport.t) :
  HallucinationDetector.detect rt self sql schema dialect = Returns report →
  HallucinationDetector.validate rt self sql schema dialect
  = Returns {|
      ValidationResult.is_valid :=
        bool_decide (length
          ((HallucinationDetector.table_error
              <$> HallucinationReport.phantom_tables report) ++
           (HallucinationDetector.column_error
              <$> HallucinationReport.phantom_columns report)) = 0);
      ValidationResult.errors :=
        (HallucinationDetector.table_error
           <$> HallucinationReport.phantom_tables report) ++
        (HallucinationDetector.column_error
           <$> HallucinationReport.phantom_columns report);
      ValidationResult.warnings :=
        HallucinationDetector.function_warning dialect
          <$> HallucinationReport.phantom_functions report;
      ValidationResult.hallucination_report := Some report |}.
Proof.
  intros Hreport. unfold HallucinationDetector.validate. rewrite Hreport. simpl.
  by rewrite !foldl_snoc.
Qed.

Lemma detect_ghost (rt : Runtime) (schema : Schema.t) :
  set_order_ok rt →
  parse_one rt Scenario.ghost_sql None None = Returns Scenario.ghost_tree →
  Schema.has_table schema "ghost_table" = false →
  HallucinationDetector.detect rt HallucinationDetector.init
    Scenario.ghost_sql schema ""
  = Returns (HallucinationReport.init ["ghost_table"] [] [] (1 / 1)%Q).
Proof.
  intros Horder Hparse Hghost. unfold HallucinationDetector.detect.
  change (HallucinationDetector.parser HallucinationDetector.init)
    with (SQLParser.init "").
  rewrite (extract_identifiers_default rt _ _ Hparse).
  unfold Scenario.ghost_tree. rewrite extract_select_from.
  rewrite list_of_set_one, list_of_set_nil by done. simpl.
  unfold HallucinationDetector._detect_phantom_tables. simpl.
  unfold append_if.
  change (PyStr.last_segment "ghost_table") with "ghost_table".
  by rewrite Hghost.
Qed.

(** C6.  For every call, [validate] is [detect] followed by a
    conversion of the report: when [detect] returns a report,
    [validate] returns a result that embeds it, with one error string
    for each phantom table and each phantom column, in that order, and
    one warning string for each phantom function; is_valid is true iff
    there is no error, that is iff there is no phantom table and no
    phantom column, whatever the phantom functions; when [detect]
    raises, [validate] raises the same exception.  Validating
    SELECT * FROM ghost_table against a schema without ghost_table gives
    is_valid false and the single error naming ghost_table. *)
Theorem validate_wraps_detect (rt : Runtime) (self : HallucinationDetector.t)
    (sql : string) (schema : Schema.t) (dialect : string) :
  HallucinationDetector.validate rt self sql schema dialect
  = (λ report,
       {| ValidationResult.is_valid :=
            bool_decide (HallucinationReport.phantom_tables report = [] ∧
                         HallucinationReport.phantom_columns report = []);
          ValidationResult.errors :=
            (HallucinationDetector.table_error
               <$> HallucinationReport.phantom_tables report) ++
            (HallucinationDetector.column_error
               <$> HallucinationReport.phantom_columns report);
          ValidationResult.warnings :=
            HallucinationDetector.function_warning dialect
              <$> HallucinationReport.phantom_functions report;
          ValidationResult.hallucination_report := Some report |})
      <$> HallucinationDetector.detect rt self sql schema dialect ∧
  (∀ report,
     HallucinationDetector.detect rt self sql schema dialect = Returns report →
     ∃ result,
       HallucinationDetector.validate rt self sql schema dialect = Returns result ∧
       ValidationResult.hallucination_report result = Some report ∧
       ValidationResult.errors result
         = (HallucinationDetector.table_error
              <$> HallucinationReport.phantom_tables report) ++
           (HallucinationDetector.column_error
              <$> HallucinationReport.phantom_columns report) ∧
       ValidationResult.warnings result
         = HallucinationDetector.function_warning dialect
             <$> HallucinationReport.phantom_functions report ∧
       length (ValidationResult.errors result)
         = length (HallucinationReport.phantom_tables report)
           + length (HallucinationReport.phantom_columns report) ∧
       length (ValidationResult.warnings result)
         = length (HallucinationReport.phantom_functions report) ∧
       (ValidationResult.is_valid result = true ↔
          ValidationResult.errors result = []) ∧
       (ValidationResult.is_valid result = true ↔
          HallucinationReport.phantom_tables report = [] ∧
          HallucinationReport.phantom_columns report = [])) ∧
  (∀ ghostless,
     set_order_ok rt →
     parse_one rt Scenario.ghost_sql None None = Returns Scenario.ghost_tree →
     Schema.has_table ghostless "ghost_table" = false →
     ∃ result error,
       HallucinationDetector.validate rt HallucinationDetector.init
         Scenario.ghost_sql ghostless "" = Returns result ∧
       ValidationResult.is_valid result = false ∧
       ValidationResult.errors result = [error] ∧
       error = "Table 'ghost_table' does not exist in schema" ∧
       PyStr.contains "ghost_table" error = true).
Proof.
  assert (∀ report,
    bool_decide (length
      ((HallucinationDetector.table_error
          <$> HallucinationReport.phantom_tables report) ++
       (HallucinationDetector.column_error
          <$> HallucinationReport.phantom_columns report)) = 0)
    = bool_decide (HallucinationReport.phantom_tables report = [] ∧
                   HallucinationReport.phantom_columns report = [])) as Hvalid.
  { intros report. apply bool_decide_ext.
    rewrite length_zero_iff_nil.
    destruct (HallucinationReport.phantom_tables report),
      (HallucinationReport.phantom_columns report); simpl;
      intuition discriminate. }
  split_and!.
  - destruct (HallucinationDetector.detect rt self sql schema dialect)
      as [report|e] eqn:Hreport.
    + rewrite (validate_of_report _ _ _ _ _ _ Hreport). simpl.
      by rewrite Hvalid.
    + unfold HallucinationDetector.validate. by rewrite Hreport.
  - intros report Hreport.
    rewrite (validate_of_report _ _ _ _ _ _ Hreport). eexists.
    split; [reflexivity|]. simpl. split_and!; try done.
    + by rewrite length_app, !length_fmap.
    + by rewrite length_fmap.
    + rewrite bool_decide_eq_true. apply length_zero_iff_nil.
    + by rewrite Hvalid, bool_decide_eq_true.
  - intros ghostless Horder Hparse Hghost.
    rewrite (validate_of_report _ _ _ _ _ _
               (detect_ghost rt ghostless Horder Hparse Hghost)).
    eexists _, _. split; [reflexivity|]. simpl. split_and!; reflexivity.
Qed.

Lemma validate_wraps_detect_witness :
  set_order_ok Scenario.runtime ∧
  parse_one Scenario.runtime Scenario.ghost_sql None None
    = Returns Scenario.ghost_tree ∧
  Schema.has_table Scenario.customers_schema "ghost_table" = false ∧
  ∃ result error,
    HallucinationDetector.validate Scenario.runtime HallucinationDetector.init
      Scenario.ghost_sql Scenario.customers_schema "" = Returns result ∧
    ValidationResult.is_valid result = false ∧
    ValidationResult.errors result = [error] ∧
    error = "Table 'ghost_table' does not exist in schema" ∧
    PyStr.contains "ghost_table" error = true.
Proof.
  split; [apply elements_order_ok|]. split; [reflexivity|]. split; [reflexivity|].
  destruct (validate_wraps_detect Scenario.runtime HallucinationDetector.init
              Scenario.ghost_sql Scenario.customers_schema "")
    as (_ & _ & Hghost).
  apply (Hghost Scenario.customers_schema).
  - apply elements_order_ok.
  - reflexivity.
  - reflexivity.
Defined.

Lemma _detect_phantom_columns_tables (columns tables : list string)
    (aliases : gmap string string) (schema schema' : Schema.t) :
  Schema.tables schema = Schema.tables schema' →
  HallucinationDetector._detect_phantom_columns columns tables aliases schema
  = HallucinationDetector._detect_phantom_columns columns tables aliases schema'.
Proof. destruct schema, schema'. simpl. by intros ->. Qed.

(** C4, as the code has it.  For a schema with exactly the table
    customers(id, name, email), detect on SELECT name, age FROM customers
    reports the phantom column age, no phantom table and no phantom
    function; the score is 1/3, one phantom among the three identifiers
    customers, name and age. *)
Theorem customers_scenario_score (rt : Runtime) (schema : Schema.t) :
  set_order_ok rt →
  parse_one rt Scenario.customers_sql None None = Returns Scenario.customers_tree →
  Schema.tables schema = {[ "customers" := Scenario.table ["id"; "name"; "email"] ]} →
  Schema.has_table schema "customers" = true →
  ∃ report,
    HallucinationDetector.detect rt HallucinationDetector.init
      Scenario.customers_sql schema "" = Returns report ∧
    HallucinationReport.phantom_columns report = ["age"] ∧
    HallucinationReport.phantom_tables report = [] ∧
    HallucinationReport.phantom_functions report = [] ∧
    (HallucinationReport.hallucination_score report == 1 # 3)%Q.
Proof.
  intros Horder Hparse Htables Hcustomers. unfold HallucinationDetector.detect.
  change (HallucinationDetector.parser HallucinationDetector.init)
    with (SQLParser.init "").
  rewrite (extract_identifiers_default rt _ _ Hparse).
  unfold Scenario.customers_tree. rewrite extract_select_from.
  rewrite list_of_set_one, list_of_set_nil by done.
  assert (∀ columns,
    columns = ["name"; "age"] ∨ columns = ["age"; "name"] →
    HallucinationDetector._detect_phantom_columns columns ["customers"] ∅ schema
    = ["age"]) as Hcolumns.
  { intros columns Hcases.
    rewrite (_detect_phantom_columns_tables _ _ _ schema Scenario.customers_schema)
      by done.
    destruct Hcases as [-> | ->]; by_compute. }
  assert (length (list_of_set rt (list_to_set ["name"; "age"])) = 2) as Hlen.
  { by destruct (list_of_set_two rt Horder "name" "age") as [-> | ->]. }
  eexists. split; [reflexivity|]. cbn [mbind result_bind mret].
  unfold HallucinationReport.init.
  cbn [HallucinationReport.phantom_columns HallucinationReport.phantom_tables
       HallucinationReport.phantom_functions HallucinationReport.hallucination_score
       IdentifierSet.tables IdentifierSet.columns IdentifierSet.functions
       IdentifierSet.aliases].
  rewrite Hcolumns by (by apply list_of_set_two).
  assert (HallucinationDetector._detect_phantom_tables ["customers"] schema = [])
    as ->.
  { unfold HallucinationDetector._detect_phantom_tables, append_if. simpl.
    change (PyStr.last_segment "customers") with "customers".
    by rewrite Hcustomers. }
  rewrite Hlen. split_and!; reflexivity.
Qed.

Lemma customers_scenario_score_witness :
  ∃ report,
    HallucinationDetector.detect Scenario.runtime HallucinationDetector.init
      Scenario.customers_sql Scenario.customers_schema "" = Returns report ∧
    HallucinationReport.phantom_columns report = ["age"] ∧
    HallucinationReport.phantom_tables report = [] ∧
    HallucinationReport.phantom_functions report = [] ∧
    (HallucinationReport.hallucination_score report == 1 # 3)%Q.
Proof.
  apply (customers_scenario_score Scenario.runtime Scenario.customers_schema).
  - apply elements_order_ok.
  - reflexivity.
  - reflexivity.
  - reflexivity.
Defined.

(** The scenario gives a score of 1/3, not 1/2. *)
Lemma customers_score_is_not_a_half :
  ∃ report,
    HallucinationDetector.detect Scenario.runtime HallucinationDetector.init
      Scenario.customers_sql Scenario.customers_schema "" = Returns report ∧
    HallucinationReport.phantom_columns report = ["age"] ∧
    HallucinationReport.phantom_tables report = [] ∧
    HallucinationReport.hallucination_score report = (1 # 3)%Q ∧
    ¬ (HallucinationReport.hallucination_score report == 1 # 2)%Q.
Proof.
  eexists. split; [by_compute|]. split_and!; try reflexivity.
  simpl. intros H. vm_compute in H. discriminate.
Qed.

(* ===================================================================== *)
(** ** Letter case in the statement *)
(* ===================================================================== *)





(* ===================================================================== *)
(** ** Further consequences *)
(* ===================================================================== *)

(** For a schema that answers [has_table] by exact lookup, a table is
    phantom iff neither its last segment nor its spelling is a key. *)
Lemma phantom_table_snapshot (stored : gmap string TableInfo.t)
    (functions : option (list string)) (tables : list string) (table : string) :
  table ∈ HallucinationDetector._detect_phantom_tables tables
            (Schema.snapshot stored functions) ↔
  table ∈ tables ∧ stored !! PyStr.last_segment table = None ∧ stored !! table = None.
Proof.
  unfold HallucinationDetector._detect_phantom_tables.
  rewrite foldl_append_if, app_nil_l, elem_of_filter_bool. simpl.
  rewrite andb_true_iff, !negb_true_iff, !bool_decide_eq_false.
  by rewrite <- !eq_None_not_Some.
Qed.

Example phantom_tables_example :
  HallucinationDetector._detect_phantom_tables
    ["public.orders"; "Orders"; "ghost_table"] Scenario.orders_schema
  = ["Orders"; "ghost_table"].
Proof. reflexivity. Qed.

(** A statement without identifiers has score 0. *)
Example literal_score :
  HallucinationReport.hallucination_score
    <$> HallucinationDetector.detect Scenario.runtime HallucinationDetector.init
          Scenario.literal_sql Scenario.customers_schema ""
  = Returns (0 # 1)%Q.
Proof. by_compute. Qed.

(** A qualified column is checked against the referenced tables only. *)
Example qualified_columns_example :
  HallucinationDetector._detect_phantom_columns
    ["customers.Name"; "customers.age"; "TOTAL"; "orders.total"]
    ["customers"] ∅ Scenario.shop_schema
  = ["customers.age"; "orders.total"].
Proof. by_compute. Qed.

(* ===================================================================== *)
(** ** More on the string methods *)
(* ===================================================================== *)

Section MoreStrings.
Import PyStr.

Lemma char_upper_upper c : char_upper (char_upper c) = char_upper c.
Proof. destruct c as [[] [] [] [] [] [] [] []]; by vm_compute. Qed.

Lemma char_upper_lower c : char_upper (char_lower c) = char_upper c.
Proof. destruct c as [[] [] [] [] [] [] [] []]; by vm_compute. Qed.

Lemma upper_upper s : upper (upper s) = upper s.
Proof. induction s as [|c s IH]; simpl; [done|]. by rewrite char_upper_upper, IH. Qed.

Lemma upper_lower s : upper (lower s) = upper s.
Proof. induction s as [|c s IH]; simpl; [done|]. by rewrite char_upper_lower, IH. Qed.

Lemma rev_cons c s : String.rev (String c s) = String.rev s +:+ String c "".
Proof. change (String c s) with (String c "" +:+ s). by rewrite rev_append. Qed.

Lemma rev_involutive s : String.rev (String.rev s) = s.
Proof.
  induction s as [|c s IH]; [done|].
  by rewrite rev_cons, rev_append, IH.
Qed.

Lemma lower_rev s : lower (String.rev s) = String.rev (lower s).
Proof.
  induction s as [|c s IH]; [done|]. simpl lower.
  by rewrite !rev_cons, lower_app, IH.
Qed.

Lemma lower_lstrip s : lower (lstrip s) = lstrip (lower s).
Proof.
  induction s as [|c s IH]; simpl; [done|].
  rewrite is_space_char_lower. by destruct (is_space c).
Qed.

Lemma lower_strip s : lower (strip s) = strip (lower s).
Proof.
  unfold strip, rstrip. by rewrite lower_rev, lower_lstrip, lower_rev, lower_lstrip.
Qed.

Lemma starts_clean_lstrip s : starts_clean (lstrip s) = true.
Proof.
  induction s as [|c s IH]; simpl; [done|].
  destruct (is_space c) eqn:Hc; [done|]. simpl. by rewrite Hc.
Qed.

Lemma lstrip_clean s : starts_clean s = true → lstrip s = s.
Proof. destruct s as [|c s]; simpl; [done|]. by intros ->%negb_true_iff. Qed.

Lemma lstrip_app_clean a c b :
  is_space c = false → lstrip (a +:+ String c b) = lstrip a +:+ String c b.
Proof.
  intros Hc. induction a as [|x a IH].
  - simpl. change ("" +:+ String c b) with (String c b). simpl. by rewrite Hc.
  - rewrite app_cons. simpl. destruct (is_space x); [done|]. by rewrite app_cons.
Qed.

Lemma rstrip_cons c s :
  is_space c = false → rstrip (String c s) = String c (rstrip s).
Proof.
  intros Hc. unfold rstrip.
  by rewrite rev_cons, lstrip_app_clean, rev_append by done.
Qed.

Lemma starts_clean_rstrip s : starts_clean s = true → starts_clean (rstrip s) = true.
Proof.
  destruct s as [|c s]; [done|]. simpl. intros Hc%negb_true_iff.
  rewrite rstrip_cons by done. simpl. by rewrite Hc.
Qed.

Lemma rstrip_rstrip s : rstrip (rstrip s) = rstrip s.
Proof.
  unfold rstrip. rewrite rev_involutive.
  by rewrite (lstrip_clean (lstrip _)) by apply starts_clean_lstrip.
Qed.

Lemma strip_strip s : strip (strip s) = strip s.
Proof.
  unfold strip.
  rewrite (lstrip_clean (rstrip _))
    by (apply starts_clean_rstrip, starts_clean_lstrip).
  apply rstrip_rstrip.
Qed.

Lemma split_qualified a b :
  has_dot a = false → split "." (a +:+ "." +:+ b) = a :: split "." b.
Proof.
  induction a as [|c a IH]; [done|]. intros H. simpl in H.
  apply orb_false_elim in H as [Hc Ha].
  rewrite app_cons. cbn [split]. by rewrite Hc, (IH Ha).
Qed.

Lemma split_nonempty s : split "." s ≠ [].
Proof.
  destruct s as [|c s]; simpl; [done|].
  destruct (bool_decide _); [done|]. by destruct (split "." s).
Qed.

Lemma hd_split_no_dot s : has_dot s = false → List.hd "" (split "." s) = s.
Proof. intros H. by rewrite split_no_dot. Qed.

Lemma startswith_app p s : startswith p (p +:+ s) = true.
Proof.
  induction p as [|c p IH]; [done|]. rewrite app_cons. simpl.
  by rewrite bool_decide_eq_true_2, IH.
Qed.

Lemma startswith_inv p s : startswith p s = true → ∃ rest, s = p +:+ rest.
Proof.
  revert s. induction p as [|c p IH]; intros s; simpl.
  - intros _. by exists s.
  - destruct s as [|x s]; [done|].
    intros [->%bool_decide_eq_true Hs]%andb_prop.
    destruct (IH s Hs) as [rest ->]. by exists rest.
Qed.

End MoreStrings.

(* ===================================================================== *)
(** ** More on dialect names and parsing (sql_parser.py) *)
(* ===================================================================== *)

Lemma DIALECT_MAP_values (key : string) (canonical : string) :
  DIALECT_MAP !! key = Some (Some canonical) →
  canonical ≠ "" ∧ SQLParser._normalize_dialect canonical = Some canonical.
Proof.
  intros Hkey. apply elem_of_list_to_map_2 in Hkey. unfold DIALECT_MAP in Hkey.
  repeat (apply elem_of_cons in Hkey as [[= _ ->]|Hkey];
          [split; [discriminate|reflexivity]|]).
  apply elem_of_cons in Hkey as [[=]|Hkey].
  by apply not_elem_of_nil in Hkey.
Qed.

Lemma normalized_name_is_fixed (dialect name : string) :
  SQLParser._normalize_dialect dialect = Some name →
  name ≠ "" ∧ SQLParser._normalize_dialect name = Some name.
Proof.
  rewrite _normalize_dialect_key. unfold dialect_of_key.
  destruct (DIALECT_MAP !! PyStr.strip (PyStr.lower dialect))
    as [[canonical|]|] eqn:Hkey; [|done|].
  - intros [= <-]. by apply DIALECT_MAP_values in Hkey.
  - intros [= <-]. split.
    + intros Hempty. by rewrite Hempty in Hkey.
    + rewrite _normalize_dialect_key, <- lower_strip, strip_strip, lower_strip,
        lower_lower.
      unfold dialect_of_key. by rewrite Hkey.
Qed.

(** X21.  Normalizing a dialect never yields the empty name, and a
    normalized name normalizes to itself. *)
Theorem normalize_dialect_idempotent (dialect name : string) :
  SQLParser._normalize_dialect dialect = Some name →
  name ≠ "" ∧ SQLParser._normalize_dialect name = Some name.
Proof. apply normalized_name_is_fixed. Qed.

Lemma normalize_dialect_idempotent_witness :
  SQLParser._normalize_dialect " PostgreSQL " = Some "postgres" ∧
  SQLParser._normalize_dialect "postgres" = Some "postgres".
Proof.
  assert (SQLParser._normalize_dialect " PostgreSQL " = Some "postgres") as H
    by reflexivity.
  split; [exact H|].
  apply (normalize_dialect_idempotent " PostgreSQL " "postgres" H).
Defined.

Lemma or_else_normalized (dialect : string) :
  PyStr.or_else (SQLParser._normalize_dialect dialect) None
  = SQLParser._normalize_dialect dialect.
Proof.
  destruct (SQLParser._normalize_dialect dialect) as [name|] eqn:Hd; [|done].
  destruct (normalized_name_is_fixed _ _ Hd) as [Hne _].
  unfold PyStr.or_else. simpl. unfold PyStr.truthy.
  by rewrite bool_decide_eq_false_2.
Qed.

Lemma attempted_dialect (d0 d : string) :
  PyStr.or_else (SQLParser._normalize_dialect d)
    (SQLParser.default_dialect (SQLParser.init d0))
  = SQLParser._normalize_dialect
      (if bool_decide (SQLParser._normalize_dialect d = None) then d0 else d).
Proof.
  case_bool_decide as Hd.
  - by rewrite Hd.
  - destruct (SQLParser._normalize_dialect d) as [name|] eqn:Hname; [|done].
    destruct (normalized_name_is_fixed _ _ Hname) as [Hne _].
    unfold PyStr.or_else. simpl. unfold PyStr.truthy.
    by rewrite bool_decide_eq_false_2.
Qed.

Lemma attempted_without_default (dialect : string) :
  PyStr.or_else (SQLParser._normalize_dialect dialect)
    (SQLParser.default_dialect (SQLParser.init ""))
  = SQLParser._normalize_dialect dialect.
Proof. apply or_else_normalized. Qed.

(** X1.  The default dialect of a parser stands in for the dialect of a
    call exactly when that one normalizes to none: parsing with default
    [d0] and dialect [d] is parsing without default, with [d0] when [d]
    is empty or blank and with [d] otherwise. *)
Theorem default_dialect_used_when_none (rt : Runtime) (d0 sql d : string) :
  SQLParser.parse rt (SQLParser.init d0) sql d
  = SQLParser.parse rt (SQLParser.init "") sql
      (if bool_decide (SQLParser._normalize_dialect d = None) then d0 else d).
Proof.
  rewrite !parse_outcome. cbv zeta.
  by rewrite attempted_dialect, attempted_without_default.
Qed.

(** X2.  A ParsedSQL that [parse] returns carries the statement, the
    identifiers of its own tree, and as dialect the normalized dialect
    that was asked for, or auto: never the empty string, and never the
    fallback dialect that produced the tree. *)
Theorem parse_result_keeps_request (rt : Runtime) (self : SQLParser.t)
    (sql dialect : string) (parsed : ParsedSQL.t) :
  SQLParser.parse rt self sql dialect = Returns parsed →
  let attempted :=
    PyStr.or_else (SQLParser._normalize_dialect dialect)
                  (SQLParser.default_dialect self) in
  let identifiers := SQLParser._extract_all_identifiers rt (ParsedSQL.ast parsed) in
  ParsedSQL.raw_sql parsed = sql ∧
  ParsedSQL.dialect parsed = default "auto" (PyStr.or_else attempted None) ∧
  ParsedSQL.dialect parsed ≠ "" ∧
  ParsedSQL.tables parsed = IdentifierSet.tables identifiers ∧
  ParsedSQL.columns parsed = IdentifierSet.columns identifiers ∧
  ParsedSQL.functions parsed = IdentifierSet.functions identifiers ∧
  ParsedSQL.aliases parsed = IdentifierSet.aliases identifiers.
Proof.
  intros Hparse attempted. rewrite parse_outcome in Hparse. fold attempted in Hparse.
  assert (∃ ast, parsed = parsed_of rt sql attempted ast) as [ast ->].
  { destruct (SQLParser.parse_as rt sql attempted) as [ast|[|cls]]; [| |done].
    - exists ast. congruence.
    - destruct (first_success rt sql (fallbacks_after attempted)) as [ast|].
      + exists ast. congruence.
      + destruct (parse_one rt sql None (Some IGNORE)) as [ast|e]; [|done].
        exists ast. simpl in Hparse. congruence. }
  simpl. split_and!; try done.
  unfold PyStr.or_else. destruct attempted as [name|]; simpl; [|done].
  unfold PyStr.truthy. case_bool_decide; simpl; done.
Qed.

Lemma parse_result_keeps_request_witness :
  ∃ parsed,
    SQLParser.parse_as Scenario.postgres_only_runtime Scenario.customers_sql
      (Some "mysql") = Raises ParseError ∧
    SQLParser.parse Scenario.postgres_only_runtime (SQLParser.init "")
      Scenario.customers_sql "MySQL" = Returns parsed ∧
    ParsedSQL.ast parsed = Scenario.customers_tree ∧
    ParsedSQL.dialect parsed = "mysql".
Proof.
  eexists.
  assert (SQLParser.parse Scenario.postgres_only_runtime (SQLParser.init "")
            Scenario.customers_sql "MySQL" = Returns _) as Hparse
    by (vm_compute; reflexivity).
  split; [reflexivity|]. split; [exact Hparse|]. split; [reflexivity|].
  apply (parse_result_keeps_request _ _ _ _ _ Hparse).
Defined.

(* ===================================================================== *)
(** ** More on identifier extraction (sql_parser.py) *)
(* ===================================================================== *)

Section Extraction.
Variable rt : Runtime.
Hypothesis order_ok : set_order_ok rt.

Lemma NoDup_list_of_set (X : gset string) : NoDup (list_of_set rt X).
Proof. rewrite (order_ok X). apply NoDup_elements. Qed.

Lemma elem_of_list_of_set (X : gset string) (x : string) :
  x ∈ list_of_set rt X ↔ x ∈ X.
Proof. rewrite (order_ok X). apply elem_of_elements. Qed.

Lemma elem_of_list_of_set_fmap {A} (f : A → string) (l : list A) (x : string) :
  x ∈ list_of_set rt (list_to_set (f <$> l)) ↔ ∃ a, a ∈ l ∧ x = f a.
Proof.
  rewrite elem_of_list_of_set, elem_of_list_to_set, list_elem_of_fmap.
  split; intros (a & H1 & H2); by exists a.
Qed.

End Extraction.

(** X3.  The extracted tables, columns and functions are sets: no name
    occurs twice, and a name is listed iff some node of the tree yields
    it. *)
Theorem extracted_identifiers_are_sets (rt : Runtime) (ast : exp.Expression) :
  set_order_ok rt →
  let identifiers := SQLParser._extract_all_identifiers rt ast in
  NoDup (IdentifierSet.tables identifiers) ∧
  NoDup (IdentifierSet.columns identifiers) ∧
  NoDup (IdentifierSet.functions identifiers) ∧
  (∀ x, x ∈ IdentifierSet.tables identifiers ↔
        ∃ table, table ∈ exp.find_all_Table ast ∧ x = SQLParser.table_entry table) ∧
  (∀ x, x ∈ IdentifierSet.columns identifiers ↔
        ∃ col, col ∈ exp.find_all_Column ast ∧ x = SQLParser.column_entry col) ∧
  (∀ x, x ∈ IdentifierSet.functions identifiers ↔
        ∃ func, func ∈ exp.find_all_Func ast ∧ x = SQLParser.func_entry func).
Proof.
  intros Horder identifiers. unfold identifiers, SQLParser._extract_all_identifiers.
  simpl. split_and!; try apply NoDup_list_of_set; try done;
    intros x; by apply elem_of_list_of_set_fmap.
Qed.

Lemma extracted_identifiers_are_sets_witness :
  NoDup (IdentifierSet.columns
           (SQLParser._extract_all_identifiers Scenario.runtime Scenario.calls_tree)) ∧
  NoDup (IdentifierSet.functions
           (SQLParser._extract_all_identifiers Scenario.runtime Scenario.calls_tree)).
Proof.
  destruct (extracted_identifiers_are_sets Scenario.runtime Scenario.calls_tree
              elements_order_ok) as (_ & Hcolumns & Hfunctions & _).
  split; [exact Hcolumns | exact Hfunctions].
Defined.

Lemma func_entry_upper (func : exp.Func) :
  PyStr.upper (SQLParser.func_entry func) = SQLParser.func_entry func.
Proof.
  unfold SQLParser.func_entry.
  destruct (PyStr.truthy_opt _); [apply upper_upper|].
  destruct (exp.func_sql_name func); apply upper_upper.
Qed.

(** X4.  Every extracted function name is in upper case, so that two
    calls that differ in letter case only are one function, and the
    detector's own upper-casing leaves the name as it is. *)
Theorem extracted_functions_are_upper (rt : Runtime) (ast : exp.Expression)
    (func : string) :
  set_order_ok rt →
  func ∈ IdentifierSet.functions (SQLParser._extract_all_identifiers rt ast) →
  PyStr.upper func = func.
Proof.
  intros Horder Hfunc.
  apply (elem_of_list_of_set_fmap rt Horder) in Hfunc as (node & _ & ->).
  apply func_entry_upper.
Qed.

Lemma extracted_functions_are_upper_witness :
  IdentifierSet.functions
    (SQLParser._extract_all_identifiers Scenario.runtime Scenario.calls_tree)
    = ["SUM"; "MEDIAN"] ∧
  PyStr.upper "MEDIAN" = "MEDIAN".
Proof.
  assert (IdentifierSet.functions
            (SQLParser._extract_all_identifiers Scenario.runtime Scenario.calls_tree)
          = ["SUM"; "MEDIAN"]) as Hfunctions by (vm_compute; reflexivity).
  split; [exact Hfunctions|].
  apply (extracted_functions_are_upper Scenario.runtime Scenario.calls_tree).
  - apply elements_order_ok.
  - rewrite Hfunctions. apply list_elem_of_further, list_elem_of_here.
Defined.

Lemma last_segment_app (q b : string) :
  PyStr.last_segment (q +:+ "." +:+ b) = PyStr.last_segment b.
Proof.
  induction q as [|c q IH].
  - change ("" +:+ "." +:+ b) with (String "." b). by rewrite last_segment_cons.
  - rewrite app_cons, last_segment_cons, has_dot_qualified, IH.
    by destruct (bool_decide _).
Qed.

Lemma last_segment_qualified (q b : string) :
  PyStr.has_dot b = false → PyStr.last_segment (q +:+ "." +:+ b) = b.
Proof. intros Hb. rewrite last_segment_app. by apply last_segment_no_dot. Qed.

Lemma last_segment_table_entry (table : exp.Table) :
  PyStr.has_dot (exp.table_name table) = false →
  PyStr.last_segment (SQLParser.table_entry table) = exp.table_name table.
Proof.
  intros Hname. unfold SQLParser.table_entry.
  destruct (PyStr.truthy (exp.table_catalog table)),
    (PyStr.truthy (exp.table_db table));
    rewrite ?last_segment_app; by apply last_segment_no_dot.
Qed.

(** X5.  A table reference whose own name the schema knows is never
    reported phantom, whatever schema or catalog qualifies it: the
    detector looks up the name of the node, the last segment of the
    recorded spelling. *)
Theorem known_table_is_not_phantom (table : exp.Table) (tables : list string)
    (schema : Schema.t) :
  PyStr.has_dot (exp.table_name table) = false →
  Schema.has_table schema (exp.table_name table) = true →
  PyStr.last_segment (SQLParser.table_entry table) = exp.table_name table ∧
  SQLParser.table_entry table
    ∉ HallucinationDetector._detect_phantom_tables tables schema.
Proof.
  intros Hname Hknown. split; [by apply last_segment_table_entry|].
  unfold HallucinationDetector._detect_phantom_tables.
  rewrite foldl_append_if, app_nil_l, elem_of_filter_bool.
  rewrite last_segment_table_entry, Hknown by done. simpl. by intros [_ ?].
Qed.

Lemma known_table_is_not_phantom_witness :
  SQLParser.table_entry (exp.mkTable "orders" "sales" "warehouse")
    = "warehouse.sales.orders" ∧
  "warehouse.sales.orders"
    ∉ HallucinationDetector._detect_phantom_tables
        ["warehouse.sales.orders"; "ghost_table"] Scenario.orders_schema.
Proof.
  split; [reflexivity|].
  apply (known_table_is_not_phantom (exp.mkTable "orders" "sales" "warehouse")
           ["warehouse.sales.orders"; "ghost_table"] Scenario.orders_schema);
    reflexivity.
Defined.

Lemma alias_entry_lookup (aliases : gmap string string) (alias : exp.Alias)
    (name : string) :
  SQLParser.alias_entry aliases alias !! name
  = if bool_decide (exp.alias_alias alias = name) then Some (alias_value alias)
    else aliases !! name.
Proof.
  unfold SQLParser.alias_entry, alias_value.
  destruct (exp.alias_this_name alias); simpl;
    rewrite lookup_insert; by repeat case_decide; case_bool_decide.
Qed.

Lemma foldl_alias_entry_other (nodes : list exp.Alias) (aliases : gmap string string)
    (name : string) :
  (∀ node, node ∈ nodes → exp.alias_alias node ≠ name) →
  foldl SQLParser.alias_entry aliases nodes !! name = aliases !! name.
Proof.
  revert aliases. induction nodes as [|node nodes IH]; intros aliases Hother;
    simpl; [done|].
  rewrite IH by (intros n Hn; apply Hother; by right).
  rewrite alias_entry_lookup, bool_decide_eq_false_2; [done|].
  apply Hother. by left.
Qed.

(** X6.  When several aliases of a tree carry the same name, the last
    one wins: the alias is bound to the name of the expression of the
    last such node (to its text when the expression has no name).  A
    name no node carries is not bound. *)
Theorem aliases_last_writer_wins (rt : Runtime) (ast : exp.Expression)
    (before after : list exp.Alias) (alias : exp.Alias) :
  exp.find_all_Alias ast = before ++ alias :: after →
  (∀ node, node ∈ after → exp.alias_alias node ≠ exp.alias_alias alias) →
  IdentifierSet.aliases (SQLParser._extract_all_identifiers rt ast)
    !! exp.alias_alias alias = Some (alias_value alias) ∧
  ∀ name, (∀ node, node ∈ exp.find_all_Alias ast → exp.alias_alias node ≠ name) →
          IdentifierSet.aliases (SQLParser._extract_all_identifiers rt ast) !! name
          = None.
Proof.
  intros Hnodes Hafter. unfold SQLParser._extract_all_identifiers. simpl. split.
  - rewrite Hnodes, foldl_app. simpl.
    rewrite foldl_alias_entry_other by done.
    by rewrite alias_entry_lookup, bool_decide_eq_true_2.
  - intros name Hname. by rewrite foldl_alias_entry_other.
Qed.

Lemma aliases_last_writer_wins_witness :
  IdentifierSet.aliases
    (SQLParser._extract_all_identifiers Scenario.runtime Scenario.calls_tree) !! "t"
  = Some "SUM(total)".
Proof.
  apply (aliases_last_writer_wins Scenario.runtime Scenario.calls_tree
           [exp.mkAlias "t" (Some "total") "total"] []
           (exp.mkAlias "t" None "SUM(total)")).
  - reflexivity.
  - intros node Hnode. by apply not_elem_of_nil in Hnode.
Defined.

(* ===================================================================== *)
(** ** More on phantom functions (hallucination_detector.py) *)
(* ===================================================================== *)

(** X7.  [is_valid_function] depends on the function name through its
    upper-cased form only: two spellings that upper-case alike, such
    as two ASCII spellings that differ in letter case only, get the same
    answer.  A function it accepts for a dialect is never reported
    phantom for that dialect, in either spelling and whatever the schema
    declares. *)
Theorem valid_function_is_not_phantom (func func' dialect : string)
    (functions : list string) (schema : Schema.t) :
  PyStr.upper func' = PyStr.upper func →
  SQLParser.is_valid_function func' dialect
    = SQLParser.is_valid_function func dialect ∧
  (∀ other, ascii_text other = true → ascii_text func = true →
            PyStr.lower other = PyStr.lower func →
            SQLParser.is_valid_function other dialect
            = SQLParser.is_valid_function func dialect) ∧
  (SQLParser.is_valid_function func dialect = true →
   (func ∉ HallucinationDetector._detect_phantom_functions functions dialect schema) ∧
   (func' ∉ HallucinationDetector._detect_phantom_functions functions dialect schema)).
Proof.
  unfold SQLParser.is_valid_function. intros Hupper. split_and!.
  - by rewrite Hupper.
  - intros other _ _ Hlower.
    by rewrite <- (upper_lower other), Hlower, upper_lower.
  - intros Hvalid%bool_decide_eq_true.
    split; rewrite elem_of_phantom_functions; intros (_ & Hnot & _);
      apply Hnot, elem_of_union_l; [done|]. by rewrite Hupper.
Qed.

Lemma valid_function_is_not_phantom_witness :
  PyStr.upper "Date_Trunc" = PyStr.upper "DATE_TRUNC" ∧
  SQLParser.is_valid_function "Date_Trunc" "BigQuery"
    = SQLParser.is_valid_function "DATE_TRUNC" "BigQuery" ∧
  SQLParser.is_valid_function "DATE_TRUNC" "BigQuery" = true ∧
  "Date_Trunc" ∉ HallucinationDetector._detect_phantom_functions
                   ["Date_Trunc"; "MEDIAN"] "BigQuery" Scenario.customers_schema.
Proof.
  assert (PyStr.upper "Date_Trunc" = PyStr.upper "DATE_TRUNC") as Hupper
    by reflexivity.
  assert (SQLParser.is_valid_function "DATE_TRUNC" "BigQuery" = true) as Hvalid
    by (vm_compute; reflexivity).
  destruct (valid_function_is_not_phantom "DATE_TRUNC" "Date_Trunc" "BigQuery"
              ["Date_Trunc"; "MEDIAN"] Scenario.customers_schema Hupper)
    as (Hsame & _ & Hphantom).
  split; [exact Hupper|]. split; [exact Hsame|]. split; [exact Hvalid|].
  apply (Hphantom Hvalid).
Defined.

Lemma _is_function_alias_mono (func : string) (valid valid' : gset string) :
  valid ⊆ valid' →
  HallucinationDetector._is_function_alias func valid = true →
  HallucinationDetector._is_function_alias func valid' = true.
Proof.
  intros Hsub. unfold HallucinationDetector._is_function_alias.
  destruct (HallucinationDetector.function_aliases !! func) as [[|name]|]; try done.
  rewrite !bool_decide_eq_true. apply Hsub.
Qed.

(** X8.  Accepting more functions never reports more: when the valid
    functions of one dialect and schema include those of another, every
    function reported phantom under the larger set is reported under the
    smaller one.  In particular whatever is phantom under some dialect
    is phantom under a dialect that has the common functions only. *)
Theorem more_valid_functions_fewer_phantoms (functions : list string)
    (dialect dialect' : string) (schema schema' : Schema.t) (func : string) :
  SQLParser.get_dialect_functions dialect ∪ custom_functions schema
    ⊆ SQLParser.get_dialect_functions dialect' ∪ custom_functions schema' →
  (func ∈ HallucinationDetector._detect_phantom_functions functions dialect' schema' →
   func ∈ HallucinationDetector._detect_phantom_functions functions dialect schema) ∧
  (func ∈ HallucinationDetector._detect_phantom_functions functions dialect' schema →
   func ∈ HallucinationDetector._detect_phantom_functions functions "postgres" schema).
Proof.
  intros Hsub.
  assert (∀ d d' s s',
    SQLParser.get_dialect_functions d ∪ custom_functions s
      ⊆ SQLParser.get_dialect_functions d' ∪ custom_functions s' →
    func ∈ HallucinationDetector._detect_phantom_functions functions d' s' →
    func ∈ HallucinationDetector._detect_phantom_functions functions d s) as Hmono.
  { intros d d' s s' Hincl. rewrite !elem_of_phantom_functions.
    intros (Hin & Hnot & Halias). split_and!; [done| |].
    - intros Hvalid. apply Hnot, Hincl, Hvalid.
    - destruct (HallucinationDetector._is_function_alias _
                  (SQLParser.get_dialect_functions d ∪ custom_functions s))
        eqn:Hd; [|done].
      by rewrite (_is_function_alias_mono _ _ _ Hincl Hd) in Halias. }
  split; [by apply Hmono|]. apply Hmono.
  apply union_mono_r. change (SQLParser.get_dialect_functions "postgres")
    with COMMON_FUNCTIONS. apply get_dialect_functions_common.
Qed.

Lemma more_valid_functions_fewer_phantoms_witness :
  SQLParser.get_dialect_functions "mysql" ∪ custom_functions Scenario.customers_schema
    ⊆ SQLParser.get_dialect_functions "snowflake"
        ∪ custom_functions Scenario.customers_schema ∧
  ("MEDIAN" ∈ HallucinationDetector._detect_phantom_functions
                ["IFF"; "MEDIAN"] "snowflake" Scenario.customers_schema →
   "MEDIAN" ∈ HallucinationDetector._detect_phantom_functions
                ["IFF"; "MEDIAN"] "mysql" Scenario.customers_schema).
Proof.
  assert (SQLParser.get_dialect_functions "mysql"
            ∪ custom_functions Scenario.customers_schema
          ⊆ SQLParser.get_dialect_functions "snowflake"
              ∪ custom_functions Scenario.customers_schema) as Hsub.
  { apply union_mono_r. change (SQLParser.get_dialect_functions "mysql")
      with COMMON_FUNCTIONS. apply get_dialect_functions_common. }
  split; [exact Hsub|].
  apply (more_valid_functions_fewer_phantoms ["IFF"; "MEDIAN"] "mysql" "snowflake"
           Scenario.customers_schema Scenario.customers_schema "MEDIAN" Hsub).
Defined.

(* ===================================================================== *)
(** ** More on phantom columns (hallucination_detector.py) *)
(* ===================================================================== *)

Section MoreColumns.
Variable schema : Schema.t.

Lemma found_anywhere_iff (x : string) :
  HallucinationDetector.found_anywhere schema x = true ↔
  ∃ key table_info col,
    Schema.tables schema !! key = Some table_info ∧
    col ∈ TableInfo.columns table_info ∧
    PyStr.lower (ColumnInfo.name col) = x.
Proof.
  split.
  - unfold HallucinationDetector.found_anywhere.
    intros (table_info & Hinfo & Hcol)%existsb_exists.
    apply list_elem_of_In, list_elem_of_fmap in Hinfo as ([key ti] & -> & Hitem).
    apply elem_of_map_to_list in Hitem.
    apply bool_decide_eq_true, list_elem_of_fmap in Hcol as (col & -> & Hcol).
    by exists key, ti, col.
  - intros (key & table_info & col & Hkey & Hcol & <-).
    by apply (found_anywhere_intro schema key table_info).
Qed.

Lemma foldl_grows {X} (step : gset string → X → gset string) (l : list X)
    (V : gset string) (x : string) :
  (∀ V y, x ∈ V → x ∈ step V y) → x ∈ V → x ∈ foldl step V l.
Proof.
  intros Hstep. revert V. induction l as [|y l IH]; intros V HV; simpl; [done|].
  apply IH. by apply Hstep.
Qed.

Lemma foldl_adds {X} (step : gset string → X → gset string) (l : list X)
    (V : gset string) (x : string) (y : X) :
  (∀ V y, x ∈ V → x ∈ step V y) → (∀ V, x ∈ step V y) → y ∈ l →
  x ∈ foldl step V l.
Proof.
  intros Hgrow Hadd. revert V. induction l as [|z l IH]; intros V Hy; simpl.
  - by apply not_elem_of_nil in Hy.
  - apply elem_of_cons in Hy as [<-|Hy]; [|by apply IH].
    apply foldl_grows; [done|]. apply Hadd.
Qed.

Lemma add_table_columns_grows (V : gset string) (table x : string) :
  x ∈ V → x ∈ HallucinationDetector.add_table_columns schema V table.
Proof.
  intros Hx. unfold HallucinationDetector.add_table_columns.
  destruct (HallucinationDetector.table_info_of _ _ _); [|done].
  apply foldl_grows; [|done]. intros V' col HV'. set_solver.
Qed.

Lemma add_alias_columns_grows (V : gset string) (item : string * string)
    (x : string) :
  x ∈ V → x ∈ HallucinationDetector.add_alias_columns schema V item.
Proof.
  intros Hx. destruct item as [alias actual]. simpl.
  destruct (Schema.tables schema !! actual); [|done].
  apply foldl_grows; [|done]. intros V' col HV'. set_solver.
Qed.

Lemma add_table_columns_adds (V : gset string) (table : string)
    (table_info : TableInfo.t) (col : ColumnInfo.t) :
  HallucinationDetector.table_info_of schema (PyStr.last_segment table) table
    = Some table_info →
  col ∈ TableInfo.columns table_info →
  PyStr.lower (ColumnInfo.name col)
    ∈ HallucinationDetector.add_table_columns schema V table ∧
  PyStr.lower (PyStr.last_segment table) +:+ "." +:+ PyStr.lower (ColumnInfo.name col)
    ∈ HallucinationDetector.add_table_columns schema V table.
Proof.
  intros Hinfo Hcol. unfold HallucinationDetector.add_table_columns.
  rewrite Hinfo. split.
  - apply (foldl_adds _ _ _ _ col); [| |done]; intros; set_solver.
  - apply (foldl_adds _ _ _ _ col); [| |done]; intros; set_solver.
Qed.

Lemma add_alias_columns_adds (V : gset string) (alias actual : string)
    (table_info : TableInfo.t) (col : ColumnInfo.t) :
  Schema.tables schema !! actual = Some table_info →
  col ∈ TableInfo.columns table_info →
  PyStr.lower alias +:+ "." +:+ PyStr.lower (ColumnInfo.name col)
    ∈ HallucinationDetector.add_alias_columns schema V (alias, actual).
Proof.
  intros Hinfo Hcol. simpl. rewrite Hinfo.
  apply (foldl_adds _ _ _ _ col); [| |done]; intros; set_solver.
Qed.

Lemma valid_column_is_not_phantom (V : gset string) (columns : list string)
    (col : string) :
  PyStr.lower col ∈ V ∨ PyStr.lower (PyStr.last_segment col) ∈ V →
  col ∉ List.filter (HallucinationDetector.column_is_phantom V schema) columns.
Proof.
  intros Hvalid. rewrite elem_of_filter_bool. intros [_ Hphantom].
  unfold HallucinationDetector.column_is_phantom in Hphantom.
  destruct Hvalid as [Hvalid|Hvalid].
  - by rewrite (bool_decide_eq_true_2 _ Hvalid) in Hphantom.
  - rewrite (bool_decide_eq_true_2 _ Hvalid), andb_false_r in Hphantom. done.
Qed.

End MoreColumns.

(** X9.  An unqualified column is reported phantom iff no table of the
    whole schema has a column of that name, letter case apart; the
    tables and aliases of the statement play no part. *)
Theorem unqualified_column_phantom_iff (columns tables : list string)
    (aliases : gmap string string) (schema : Schema.t) (col : string) :
  PyStr.has_dot col = false →
  (col ∈ HallucinationDetector._detect_phantom_columns columns tables aliases schema ↔
   col ∈ columns ∧
   ∀ key table_info c,
     Schema.tables schema !! key = Some table_info →
     c ∈ TableInfo.columns table_info →
     PyStr.lower (ColumnInfo.name c) ≠ PyStr.lower col).
Proof.
  intros Hdot. rewrite _detect_phantom_columns_filter, elem_of_filter_bool.
  rewrite column_is_phantom_unqualified, negb_true_iff by done.
  rewrite <- not_true_iff_false, found_anywhere_iff.
  split; intros [Hin Hnone]; (split; [done|]).
  - intros key table_info c Hkey Hc Heq. apply Hnone. by exists key, table_info, c.
  - intros (key & table_info & c & Hkey & Hc & Heq). by apply (Hnone key table_info c).
Qed.

Lemma unqualified_column_phantom_iff_witness :
  PyStr.has_dot "TOTAL" = false ∧
  "TOTAL" ∉ HallucinationDetector._detect_phantom_columns
              ["TOTAL"; "age"] ["customers"] ∅ Scenario.shop_schema.
Proof.
  split; [reflexivity|].
  destruct (unqualified_column_phantom_iff ["TOTAL"; "age"] ["customers"] ∅
              Scenario.shop_schema "TOTAL" eq_refl) as [Hphantom _].
  intros [_ Hnone]%Hphantom.
  apply (Hnone "orders" (Scenario.table ["id"; "total"]) (Scenario.column "total")).
  - reflexivity.
  - apply list_elem_of_further, list_elem_of_here.
  - reflexivity.
Defined.

(** X10.  A column whose last segment names, letter case apart, a
    column of a table the statement references is never reported
    phantom, whatever qualifies it. *)
Theorem referenced_column_is_not_phantom (columns tables : list string)
    (aliases : gmap string string) (schema : Schema.t) (col table : string)
    (table_info : TableInfo.t) (c : ColumnInfo.t) :
  table ∈ tables →
  HallucinationDetector.table_info_of schema (PyStr.last_segment table) table
    = Some table_info →
  c ∈ TableInfo.columns table_info →
  PyStr.lower (PyStr.last_segment col) = PyStr.lower (ColumnInfo.name c) →
  col ∉ HallucinationDetector._detect_phantom_columns columns tables aliases schema.
Proof.
  intros Htable Hinfo Hc Hcol. rewrite _detect_phantom_columns_filter.
  apply valid_column_is_not_phantom. right. rewrite Hcol.
  unfold HallucinationDetector.valid_columns_of.
  apply foldl_grows; [intros; by apply add_alias_columns_grows|].
  apply (foldl_adds _ _ _ _ table); [| |done].
  - intros. by apply add_table_columns_grows.
  - intros V. by apply (add_table_columns_adds schema V table table_info c).
Qed.

Lemma referenced_column_is_not_phantom_witness :
  "orders.Name" ∉ HallucinationDetector._detect_phantom_columns
                    ["orders.Name"; "orders.age"] ["customers"] ∅
                    Scenario.shop_schema.
Proof.
  apply (referenced_column_is_not_phantom ["orders.Name"; "orders.age"]
           ["customers"] ∅ Scenario.shop_schema "orders.Name" "customers"
           (Scenario.table ["id"; "name"]) (Scenario.column "name")).
  - apply list_elem_of_here.
  - reflexivity.
  - apply list_elem_of_further, list_elem_of_here.
  - reflexivity.
Defined.

(** X11.  When an alias is bound to the name of a table of the schema,
    a column of that table qualified by the alias is never reported
    phantom, letter case apart. *)
Theorem aliased_column_is_not_phantom (columns tables : list string)
    (aliases : gmap string string) (schema : Schema.t) (col alias actual : string)
    (table_info : TableInfo.t) (c : ColumnInfo.t) :
  aliases !! alias = Some actual →
  Schema.tables schema !! actual = Some table_info →
  c ∈ TableInfo.columns table_info →
  PyStr.lower col = PyStr.lower alias +:+ "." +:+ PyStr.lower (ColumnInfo.name c) →
  col ∉ HallucinationDetector._detect_phantom_columns columns tables aliases schema.
Proof.
  intros Halias Hinfo Hc Hcol. rewrite _detect_phantom_columns_filter.
  apply valid_column_is_not_phantom. left. rewrite Hcol.
  unfold HallucinationDetector.valid_columns_of.
  apply (foldl_adds _ _ _ _ (alias, actual)).
  - intros. by apply add_alias_columns_grows.
  - intros V. by apply (add_alias_columns_adds schema V alias actual table_info c).
  - by apply elem_of_map_to_list.
Qed.

Lemma aliased_column_is_not_phantom_witness :
  "O.Total" ∉ HallucinationDetector._detect_phantom_columns
                ["O.Total"] ["customers"] {[ "o" := "orders" ]}
                Scenario.shop_schema.
Proof.
  apply (aliased_column_is_not_phantom ["O.Total"] ["customers"]
           {[ "o" := "orders" ]} Scenario.shop_schema "O.Total" "o" "orders"
           (Scenario.table ["id"; "total"]) (Scenario.column "total")).
  - reflexivity.
  - reflexivity.
  - apply list_elem_of_further, list_elem_of_here.
  - reflexivity.
Defined.

(* ===================================================================== *)
(** ** The score and the verdict (hallucination_detector.py) *)
(* ===================================================================== *)

Lemma ratio_zero (p m : Z) :
  (0 < m)%Z → (inject_Z p / inject_Z m == 0)%Q ↔ p = 0%Z.
Proof.
  intros Hm.
  assert (¬ (inject_Z m == 0)%Q) as Hne.
  { change 0%Q with (inject_Z 0). rewrite inject_Z_injective. lia. }
  split.
  - intros Hzero. apply inject_Z_injective. change (inject_Z 0) with 0%Q.
    rewrite <- (Qmult_div_r (inject_Z p) (inject_Z m) Hne), Hzero.
    apply Qmult_0_r.
  - intros ->. reflexivity.
Qed.

Lemma detect_report (rt : Runtime) (self : HallucinationDetector.t) (sql : string)
    (schema : Schema.t) (dialect : string) (report : HallucinationReport.t) :
  HallucinationDetector.detect rt self sql schema dialect = Returns report →
  ∃ (t : Z),
    (0 ≤ t)%Z ∧
    HallucinationReport.total_hallucinations report
    = (Z.of_nat (length (HallucinationReport.phantom_tables report)) +
       Z.of_nat (length (HallucinationReport.phantom_columns report)) +
       Z.of_nat (length (HallucinationReport.phantom_functions report)))%Z ∧
    HallucinationReport.hallucination_score report
    = (inject_Z (HallucinationReport.total_hallucinations report)
       / inject_Z (Z.max 1 t))%Q.
Proof.
  unfold HallucinationDetector.detect.
  destruct (SQLParser.extract_identifiers _ _ _ _) as [identifiers|e]; [|done].
  simpl. intros [= <-]. eexists. split; [|split; reflexivity]. lia.
Qed.

(** X12.  For a report that [detect] returns, the score is 0 exactly
    when there is no phantom at all, and that is exactly when [validate]
    finds the statement valid and has no warning. *)
Theorem score_zero_iff_clean (rt : Runtime) (self : HallucinationDetector.t)
    (sql : string) (schema : Schema.t) (dialect : string)
    (report : HallucinationReport.t) :
  HallucinationDetector.detect rt self sql schema dialect = Returns report →
  ((HallucinationReport.hallucination_score report == 0)%Q ↔
     HallucinationReport.phantom_tables report = [] ∧
     HallucinationReport.phantom_columns report = [] ∧
     HallucinationReport.phantom_functions report = []) ∧
  ((HallucinationReport.hallucination_score report == 0)%Q ↔
     ∃ result,
       HallucinationDetector.validate rt self sql schema dialect = Returns result ∧
       ValidationResult.is_valid result = true ∧
       ValidationResult.warnings result = []).
Proof.
  intros Hreport.
  destruct (detect_report _ _ _ _ _ _ Hreport) as (t & Ht & Htotal & Hscore).
  assert ((HallucinationReport.hallucination_score report == 0)%Q ↔
          HallucinationReport.phantom_tables report = [] ∧
          HallucinationReport.phantom_columns report = [] ∧
          HallucinationReport.phantom_functions report = []) as Hzero.
  { rewrite Hscore, ratio_zero, Htotal by lia.
    rewrite <- !length_zero_iff_nil. lia. }
  split; [exact Hzero|]. rewrite Hzero.
  rewrite (validate_of_report _ _ _ _ _ _ Hreport). split.
  - intros (-> & -> & ->). by eexists.
  - intros (result & [= <-] & Hvalid & Hwarnings). simpl in *.
    apply bool_decide_eq_true, length_zero_iff_nil, app_eq_nil in Hvalid
      as [Ht1 Ht2].
    apply fmap_nil_inv in Ht1, Ht2, Hwarnings. done.
Qed.

Lemma score_zero_iff_clean_witness :
  ∃ report result,
    HallucinationDetector.detect Scenario.runtime HallucinationDetector.init
      Scenario.orders_sql Scenario.orders_schema "" = Returns report ∧
    (HallucinationReport.hallucination_score report == 0)%Q ∧
    HallucinationDetector.validate Scenario.runtime HallucinationDetector.init
      Scenario.orders_sql Scenario.orders_schema "" = Returns result ∧
    ValidationResult.is_valid result = true ∧
    ValidationResult.warnings result = [].
Proof.
  eexists.
  assert (HallucinationDetector.detect Scenario.runtime HallucinationDetector.init
            Scenario.orders_sql Scenario.orders_schema "" = Returns _) as Hreport
    by (vm_compute; reflexivity).
  destruct (score_zero_iff_clean _ _ _ _ _ _ Hreport) as [_ [Hclean _]].
  destruct Hclean as (result & Hresult & Hvalid & Hwarnings); [reflexivity|].
  exists result. split_and!; try done.
Defined.

(* ===================================================================== *)
(** ** The schema validator and the detector (schema_validator.py) *)
(* ===================================================================== *)

Lemma _column_exists_unqualified (col : string) (tables : list string)
    (aliases : gmap string string) (schema : Schema.t) :
  PyStr.has_dot col = false →
  SchemaValidator._column_exists col tables aliases schema
  = HallucinationDetector.found_anywhere schema (PyStr.lower col).
Proof.
  intros Hdot. unfold SchemaValidator._column_exists.
  rewrite (split_no_dot col Hdot). simpl.
  change (existsb
            (λ table_info : TableInfo.t,
               bool_decide (PyStr.lower col ∈ SchemaValidator.column_names table_info))
            (map_to_list (Schema.tables schema)).*2)
    with (HallucinationDetector.found_anywhere schema (PyStr.lower col)).
  destruct (HallucinationDetector.found_anywhere schema (PyStr.lower col)) eqn:Hfound;
    [apply orb_true_r|].
  rewrite orb_false_r. apply not_true_iff_false.
  intros (table & _ & Hinfo)%existsb_exists.
  destruct (HallucinationDetector.table_info_of schema (PyStr.last_segment table) table)
    as [table_info|] eqn:Htable; [|done].
  apply bool_decide_eq_true, list_elem_of_fmap in Hinfo as (c & Hname & Hc).
  assert (∃ key, Schema.tables schema !! key = Some table_info) as [key Hkey].
  { unfold HallucinationDetector.table_info_of in Htable.
    destruct (Schema.tables schema !! PyStr.last_segment table) eqn:H1.
    - exists (PyStr.last_segment table). congruence.
    - by exists table. }
  rewrite Hname, (found_anywhere_intro schema key table_info c Hkey Hc) in Hfound.
  done.
Qed.

(** X13.  On identifiers whose columns all are unqualified the schema
    validator and the detector agree: the validator's errors are the
    messages for the detector's phantom tables followed by those for its
    phantom columns, and it finds the identifiers valid iff the detector
    has no phantom table and no phantom column. *)
Theorem validators_agree_on_unqualified (identifiers : IdentifierSet.t)
    (schema : Schema.t) :
  Forall (λ col, PyStr.has_dot col = false) (IdentifierSet.columns identifiers) →
  let phantom_tables :=
    HallucinationDetector._detect_phantom_tables
      (IdentifierSet.tables identifiers) schema in
  let phantom_columns :=
    HallucinationDetector._detect_phantom_columns
      (IdentifierSet.columns identifiers) (IdentifierSet.tables identifiers)
      (IdentifierSet.aliases identifiers) schema in
  ValidationResult.errors (SchemaValidator.validate identifiers schema)
  = (SchemaValidator.table_error <$> phantom_tables) ++
    (SchemaValidator.column_error <$> phantom_columns) ∧
  ValidationResult.warnings (SchemaValidator.validate identifiers schema) = [] ∧
  (ValidationResult.is_valid (SchemaValidator.validate identifiers schema) = true ↔
   phantom_tables = [] ∧ phantom_columns = []).
Proof.
  intros Hcolumns phantom_tables phantom_columns.
  assert (ValidationResult.errors (SchemaValidator.validate identifiers schema)
          = (SchemaValidator.table_error <$> phantom_tables) ++
            (SchemaValidator.column_error <$> phantom_columns)) as Herrors.
  { unfold SchemaValidator.validate. simpl.
    rewrite (foldl_collect _ SchemaValidator.column_error).
    rewrite (foldl_collect
               (λ t, negb (Schema.has_table schema (PyStr.last_segment t)) &&
                     negb (Schema.has_table schema t))
               SchemaValidator.table_error).
    unfold phantom_tables, phantom_columns,
      HallucinationDetector._detect_phantom_tables.
    rewrite foldl_append_if, _detect_phantom_columns_filter. simpl.
    do 2 f_equal. apply filter_ext_in. intros col Hcol.
    rewrite Forall_forall in Hcolumns.
    pose proof (Hcolumns col (proj2 (list_elem_of_In _ _) Hcol)) as Hdot.
    by rewrite _column_exists_unqualified, column_is_phantom_unqualified. }
  split; [exact Herrors|]. split; [done|].
  change (ValidationResult.is_valid (SchemaValidator.validate identifiers schema))
    with (bool_decide
            (length (ValidationResult.errors
                       (SchemaValidator.validate identifiers schema)) = 0)).
  rewrite bool_decide_eq_true, length_zero_iff_nil, Herrors. split.
  - intros [H1 H2]%app_eq_nil. by apply fmap_nil_inv in H1, H2.
  - by intros [-> ->].
Qed.

Lemma validators_agree_on_unqualified_witness :
  ValidationResult.errors
    (SchemaValidator.validate
       (IdentifierSet.mk ["customers"] ["name"; "age"] [] ∅)
       Scenario.customers_schema)
  = ["Column 'age' does not exist in any table."].
Proof.
  destruct (validators_agree_on_unqualified
              (IdentifierSet.mk ["customers"] ["name"; "age"] [] ∅)
              Scenario.customers_schema) as [Herrors _].
  - repeat constructor.
  - rewrite Herrors. vm_compute. reflexivity.
Defined.

(** With a qualified column the two can differ: the detector accepts
    [orders.Name] because a referenced table has a column [name], the
    validator looks in the table [orders] only. *)
Example validators_differ_on_qualified :
  HallucinationDetector._detect_phantom_columns
    ["orders.Name"] ["customers"] ∅ Scenario.shop_schema = [] ∧
  SchemaValidator._column_exists "orders.Name" ["customers"] ∅ Scenario.shop_schema
  = false.
Proof. split; by_compute. Qed.

(* ===================================================================== *)
(** ** More on join paths (join_path_verifier.py) *)
(* ===================================================================== *)

Lemma _is_valid_join_path_comm (left_col right_col : string) (schema : Schema.t) :
  JoinPathVerifier._is_valid_join_path left_col right_col schema
  = JoinPathVerifier._is_valid_join_path right_col left_col schema.
Proof.
  unfold JoinPathVerifier._is_valid_join_path.
  rewrite (orb_comm (bool_decide (length (PyStr.split "." left_col) < 2))).
  destruct (_ || _); [done|]. apply orb_comm.
Qed.

(** X14.  Whether a pair of columns is a valid join path does not
    depend on the side each column is written on. *)
Theorem join_path_is_symmetric (left_col right_col : string) (schema : Schema.t) :
  JoinPathVerifier._is_valid_join_path left_col right_col schema
  = JoinPathVerifier._is_valid_join_path right_col left_col schema.
Proof. apply _is_valid_join_path_comm. Qed.

(** X15.  A pair with an unqualified column on either side counts as a
    valid join path, whatever the schema declares: without a table
    qualifier nothing is checked. *)
Theorem unqualified_join_is_accepted (left_col right_col : string)
    (schema : Schema.t) :
  PyStr.has_dot left_col = false ∨ PyStr.has_dot right_col = false →
  JoinPathVerifier._is_valid_join_path left_col right_col schema = true.
Proof.
  unfold JoinPathVerifier._is_valid_join_path.
  intros [Hdot|Hdot]; rewrite (split_no_dot _ Hdot); simpl; [done|].
  by rewrite orb_true_r.
Qed.

Lemma unqualified_join_is_accepted_witness :
  JoinPathVerifier._is_valid_join_path "id" "orders.total" Scenario.shop_schema
  = true.
Proof.
  apply (unqualified_join_is_accepted "id" "orders.total" Scenario.shop_schema).
  left. reflexivity.
Defined.

Lemma truthy_qualified (a b : string) : PyStr.truthy (a +:+ "." +:+ b) = true.
Proof. by destruct a. Qed.

Lemma has_fk_to_intro (schema : Schema.t) (table column other_table : string)
    (table_info : TableInfo.t) (col : ColumnInfo.t) (fk_table fk_column : string) :
  Schema.tables schema !! table = Some table_info →
  col ∈ TableInfo.columns table_info →
  PyStr.lower (ColumnInfo.name col) = PyStr.lower column →
  ColumnInfo.foreign_key col = Some (fk_table +:+ "." +:+ fk_column) →
  PyStr.has_dot fk_table = false →
  PyStr.lower fk_table = PyStr.lower other_table →
  JoinPathVerifier.has_fk_to schema table column other_table = true.
Proof.
  intros Hinfo Hcol Hname Hfk Hdot Hother. unfold JoinPathVerifier.has_fk_to.
  rewrite Hinfo. apply existsb_exists. exists col.
  split; [by apply list_elem_of_In|].
  rewrite Hfk. simpl. rewrite truthy_qualified, split_qualified by done. simpl.
  rewrite (bool_decide_eq_true_2 _ Hname), (bool_decide_eq_true_2 _ Hother).
  rewrite bool_decide_eq_true_2; [done|].
  destruct (PyStr.split "." fk_column) eqn:Hsplit; simpl; [|lia].
  by apply split_nonempty in Hsplit.
Qed.

(** X16.  When a column of one table declares a foreign key into
    another table, joining that column with any column of the other
    table is a valid join path, on whichever side it is written.  The
    column name and the table the key points to are compared without
    regard to letter case; the table that owns the column is looked up
    as it is spelled. *)
Theorem declared_foreign_key_is_valid_path (schema : Schema.t)
    (left_table left_column right_table right_column : string)
    (table_info : TableInfo.t) (col : ColumnInfo.t) (fk_table fk_column : string) :
  PyStr.has_dot left_table = false →
  PyStr.has_dot left_column = false →
  PyStr.has_dot right_table = false →
  Schema.tables schema !! left_table = Some table_info →
  col ∈ TableInfo.columns table_info →
  PyStr.lower (ColumnInfo.name col) = PyStr.lower left_column →
  ColumnInfo.foreign_key col = Some (fk_table +:+ "." +:+ fk_column) →
  PyStr.has_dot fk_table = false →
  PyStr.lower fk_table = PyStr.lower right_table →
  JoinPathVerifier._is_valid_join_path
    (left_table +:+ "." +:+ left_column) (right_table +:+ "." +:+ right_column)
    schema = true ∧
  JoinPathVerifier._is_valid_join_path
    (right_table +:+ "." +:+ right_column) (left_table +:+ "." +:+ left_column)
    schema = true.
Proof.
  intros Hlt Hlc Hrt Hinfo Hcol Hname Hfk Hdot Hother.
  assert (JoinPathVerifier._is_valid_join_path
            (left_table +:+ "." +:+ left_column)
            (right_table +:+ "." +:+ right_column) schema = true) as Hvalid.
  { unfold JoinPathVerifier._is_valid_join_path.
    rewrite !split_qualified, (split_no_dot left_column) by done.
    destruct (PyStr.split "." right_column) as [|r rest] eqn:Hsplit;
      [by apply split_nonempty in Hsplit|].
    simpl.
    by rewrite (has_fk_to_intro schema left_table left_column right_table
                  table_info col fk_table fk_column). }
  split; [exact Hvalid|]. by rewrite _is_valid_join_path_comm.
Qed.

Lemma declared_foreign_key_is_valid_path_witness :
  JoinPathVerifier._is_valid_join_path "Orders.Customer_ID" "customers.id"
    Scenario.fk_schema = false ∧
  JoinPathVerifier._is_valid_join_path "orders.Customer_ID" "Customers.id"
    Scenario.fk_schema = true ∧
  JoinPathVerifier._is_valid_join_path "Customers.id" "orders.Customer_ID"
    Scenario.fk_schema = true.
Proof.
  split; [reflexivity|].
  apply (declared_foreign_key_is_valid_path Scenario.fk_schema
           "orders" "Customer_ID" "Customers" "id"
           {| TableInfo.columns :=
                [Scenario.column "id";
                 {| ColumnInfo.name := "customer_id";
                    ColumnInfo.foreign_key := Some "customers.id" |};
                 Scenario.column "total"] |}
           {| ColumnInfo.name := "customer_id";
              ColumnInfo.foreign_key := Some "customers.id" |}
           "customers" "id"); try reflexivity.
  apply list_elem_of_further, list_elem_of_here.
Defined.

Section JoinPaths.
Import JoinPathVerifier.

Lemma elem_of_append_new (valid_tables : list string) (y x : string) :
  x ∈ append_new valid_tables y ↔ x ∈ valid_tables ∨ x = y.
Proof.
  unfold append_new. case_bool_decide as Hy.
  - split; [by left|]. by intros [?| ->].
  - rewrite elem_of_app, list_elem_of_singleton. done.
Qed.

Lemma NoDup_append_new (valid_tables : list string) (y : string) :
  NoDup valid_tables → NoDup (append_new valid_tables y).
Proof.
  intros Hnodup. unfold append_new. case_bool_decide as Hy; [done|].
  apply NoDup_app. split_and!; [done| |apply NoDup_singleton].
  intros x Hx ->%list_elem_of_singleton. done.
Qed.

Lemma foldl_elem_of {Y} (step : list string → Y → list string) (Q : Y → Prop)
    (x : string) (l : list Y) (acc : list string) :
  (∀ acc y, x ∈ step acc y ↔ x ∈ acc ∨ Q y) →
  x ∈ foldl step acc l ↔ x ∈ acc ∨ ∃ y, y ∈ l ∧ Q y.
Proof.
  intros Hstep. revert acc. induction l as [|y l IH]; intros acc; simpl.
  - split; [by left|]. intros [?|(y & Hy & _)]; [done|].
    by apply not_elem_of_nil in Hy.
  - rewrite IH, Hstep. split.
    + intros [[?|?]|(z & Hz & HQ)]; [by left|right..].
      * exists y. split; [by left|done].
      * exists z. split; [by right|done].
    + intros [?|(z & Hz & HQ)]; [by left; left|].
      apply elem_of_cons in Hz as [->|Hz]; [by left; right|].
      right. by exists z.
Qed.

Lemma foldl_NoDup {Y} (step : list string → Y → list string) (l : list Y)
    (acc : list string) :
  (∀ acc y, NoDup acc → NoDup (step acc y)) →
  NoDup acc → NoDup (foldl step acc l).
Proof.
  intros Hstep. revert acc. induction l as [|y l IH]; intros acc Hacc; simpl;
    [done|]. by apply IH, Hstep.
Qed.

Lemma truthy_opt_Some (o : option string) :
  PyStr.truthy_opt o = true ↔ ∃ s, o = Some s ∧ s ≠ "".
Proof.
  destruct o as [s|]; simpl.
  - unfold PyStr.truthy. rewrite negb_true_iff, bool_decide_eq_false.
    split; [by exists s|]. by intros (? & [= <-] & ?).
  - split; [done|]. by intros (? & ? & _).
Qed.

Lemma elem_of_add_outgoing (valid_tables : list string) (col : ColumnInfo.t)
    (x : string) :
  x ∈ add_outgoing valid_tables col ↔
  x ∈ valid_tables ∨
  ∃ fk, ColumnInfo.foreign_key col = Some fk ∧ fk ≠ "" ∧
        List.hd "" (PyStr.split "." fk) = x.
Proof.
  unfold add_outgoing.
  destruct (PyStr.truthy_opt (ColumnInfo.foreign_key col)) eqn:Hfk.
  - apply truthy_opt_Some in Hfk as (fk & Hfk & Hne). rewrite Hfk. simpl.
    rewrite elem_of_append_new. split.
    + intros [?| ->]; [by left|]. right. by exists fk.
    + intros [?|(fk' & [= <-] & _ & <-)]; [by left|by right].
  - split; [by left|]. intros [?|(fk & Hsome & Hne & _)]; [done|].
    assert (PyStr.truthy_opt (ColumnInfo.foreign_key col) = true) as Ht
      by (apply truthy_opt_Some; by exists fk).
    congruence.
Qed.

Lemma elem_of_add_incoming (table : string) (valid_tables : list string)
    (item : string * TableInfo.t) (x : string) :
  x ∈ add_incoming table valid_tables item ↔
  x ∈ valid_tables ∨
  (item.1 ≠ table ∧ x = item.1 ∧
   has_foreign_key (PyStr.startswith (table +:+ ".")) item.2).
Proof.
  destruct item as [other other_info]. simpl.
  case_bool_decide as Hother.
  - split; [by left|]. by intros [?|(? & _)].
  - rewrite (foldl_elem_of _
      (λ col, x = other ∧ ∃ fk, ColumnInfo.foreign_key col = Some fk ∧ fk ≠ "" ∧
                                PyStr.startswith (table +:+ ".") fk = true)).
    + unfold has_foreign_key. split.
      * intros [?|(col & Hcol & -> & fk & Hfk & Hne & Hstart)]; [by left|].
        right. split_and!; try done. by exists col, fk.
      * intros [?|(_ & -> & col & fk & Hcol & Hfk & Hne & Hstart)]; [by left|].
        right. exists col. split_and!; try done. by exists fk.
    + intros acc col.
      destruct (PyStr.truthy_opt (ColumnInfo.foreign_key col)) eqn:Hfk; simpl.
      * apply truthy_opt_Some in Hfk as (fk & Hfk & Hne). rewrite Hfk. simpl.
        destruct (PyStr.startswith (table +:+ ".") fk) eqn:Hstart.
        -- rewrite elem_of_append_new. split.
           ++ intros [?| ->]; [by left|]. right. split; [done|]. by exists fk.
           ++ intros [?|[-> _]]; [by left|by right].
        -- split; [by left|].
           intros [?|(_ & fk' & [= <-] & _ & ?)]; [done|congruence].
      * split; [by left|]. intros [?|(_ & fk & Hsome & Hne & _)]; [done|].
        assert (PyStr.truthy_opt (ColumnInfo.foreign_key col) = true) as Ht
          by (apply truthy_opt_Some; by exists fk).
        congruence.
Qed.

Lemma NoDup_add_incoming (table : string) (valid_tables : list string)
    (item : string * TableInfo.t) :
  NoDup valid_tables → NoDup (add_incoming table valid_tables item).
Proof.
  destruct item as [other other_info]. simpl. intros Hnodup.
  destruct (bool_decide _); [done|].
  apply foldl_NoDup; [|done]. intros acc col Hacc.
  destruct (_ && _); [by apply NoDup_append_new|done].
Qed.

Lemma NoDup_add_outgoing (valid_tables : list string) (col : ColumnInfo.t) :
  NoDup valid_tables → NoDup (add_outgoing valid_tables col).
Proof.
  intros Hnodup. unfold add_outgoing.
  destruct (PyStr.truthy_opt _); [by apply NoDup_append_new|done].
Qed.

Lemma elem_of_get_valid_join_paths
    (dict_items : gmap string TableInfo.t → list (string * TableInfo.t))
    (table : string) (schema : Schema.t) (table_info : TableInfo.t) (x : string) :
  dict_order_ok dict_items →
  Schema.tables schema !! table = Some table_info →
  x ∈ get_valid_join_paths dict_items table schema ↔
  has_foreign_key (λ fk, bool_decide (List.hd "" (PyStr.split "." fk) = x)) table_info ∨
  (x ≠ table ∧
   ∃ other_info, Schema.tables schema !! x = Some other_info ∧
                 has_foreign_key (PyStr.startswith (table +:+ ".")) other_info).
Proof.
  intros Horder Hinfo. unfold get_valid_join_paths. rewrite Hinfo.
  rewrite (foldl_elem_of _ _ x _ _ (λ acc item, elem_of_add_incoming table acc item x)).
  rewrite (foldl_elem_of _ _ x _ _ (λ acc col, elem_of_add_outgoing acc col x)).
  unfold has_foreign_key. split.
  - intros [[Hnil|(col & Hcol & fk & Hfk & Hne & Hhd)]|Hincoming].
    + by apply not_elem_of_nil in Hnil.
    + left. exists col, fk. split_and!; try done. by apply bool_decide_eq_true.
    + right. destruct Hincoming as ([other other_info] & Hitem & Hne & -> & Hfk).
      simpl in *. split; [done|]. exists other_info. split; [|done].
      rewrite (Horder _) in Hitem. by apply elem_of_map_to_list in Hitem.
  - intros [(col & fk & Hcol & Hfk & Hne & Hhd)|(Hne & other_info & Hother & Hfk)].
    + left. right. exists col. split; [done|]. exists fk.
      split_and!; try done. by apply bool_decide_eq_true in Hhd.
    + right. exists (x, other_info). split; [|by split_and!].
      rewrite (Horder _). by apply elem_of_map_to_list.
Qed.

End JoinPaths.

(** X17.  [get_valid_join_paths] lists no table twice, lists nothing
    for a table the schema does not have, and otherwise lists exactly
    the tables that the first segment of a foreign key of the given
    table names, and the other tables of the schema with a foreign key
    that begins with the name of the given table and a dot. *)
Theorem valid_join_paths_characterised
    (dict_items : gmap string TableInfo.t → list (string * TableInfo.t))
    (table : string) (schema : Schema.t) :
  dict_order_ok dict_items →
  NoDup (JoinPathVerifier.get_valid_join_paths dict_items table schema) ∧
  match Schema.tables schema !! table with
  | None => JoinPathVerifier.get_valid_join_paths dict_items table schema = []
  | Some table_info =>
      ∀ x, x ∈ JoinPathVerifier.get_valid_join_paths dict_items table schema ↔
           has_foreign_key
             (λ fk, bool_decide (List.hd "" (PyStr.split "." fk) = x)) table_info ∨
           (x ≠ table ∧
            ∃ other_info,
              Schema.tables schema !! x = Some other_info ∧
              has_foreign_key (PyStr.startswith (table +:+ ".")) other_info)
  end.
Proof.
  intros Horder. split.
  - unfold JoinPathVerifier.get_valid_join_paths.
    destruct (Schema.tables schema !! table); [|apply NoDup_nil_2].
    apply foldl_NoDup; [intros; by apply NoDup_add_incoming|].
    apply foldl_NoDup; [intros; by apply NoDup_add_outgoing|].
    apply NoDup_nil_2.
  - destruct (Schema.tables schema !! table) as [table_info|] eqn:Hinfo.
    + intros x. by apply elem_of_get_valid_join_paths.
    + unfold JoinPathVerifier.get_valid_join_paths. by rewrite Hinfo.
Qed.

Lemma valid_join_paths_characterised_witness :
  dict_order_ok map_to_list ∧
  JoinPathVerifier.get_valid_join_paths map_to_list "orders" Scenario.fk_schema
    = ["customers"] ∧
  JoinPathVerifier.get_valid_join_paths map_to_list "customers" Scenario.fk_schema
    = ["orders"] ∧
  NoDup (JoinPathVerifier.get_valid_join_paths map_to_list "orders"
           Scenario.fk_schema).
Proof.
  assert (dict_order_ok map_to_list) as Horder by (intros m; reflexivity).
  split; [exact Horder|]. split; [vm_compute; reflexivity|].
  split; [vm_compute; reflexivity|].
  apply (valid_join_paths_characterised map_to_list "orders" Scenario.fk_schema
           Horder).
Defined.

(** X18.  A join that [_is_valid_join_path] accepts on account of a
    foreign key of a table points to a table that
    [get_valid_join_paths] lists for that table, letter case apart. *)
Theorem accepted_foreign_key_is_listed
    (dict_items : gmap string TableInfo.t → list (string * TableInfo.t))
    (schema : Schema.t) (table column other_table : string) :
  dict_order_ok dict_items →
  JoinPathVerifier.has_fk_to schema table column other_table = true →
  ∃ x, x ∈ JoinPathVerifier.get_valid_join_paths dict_items table schema ∧
       PyStr.lower x = PyStr.lower other_table.
Proof.
  intros Horder. unfold JoinPathVerifier.has_fk_to.
  destruct (Schema.tables schema !! table) as [table_info|] eqn:Hinfo; [|done].
  intros (col & Hcol & Hfk)%existsb_exists.
  apply andb_prop in Hfk as [Hfk Hparts].
  apply andb_prop in Hfk as [_ Htruthy].
  apply andb_prop in Hparts as [_ Hlower%bool_decide_eq_true].
  apply truthy_opt_Some in Htruthy as (fk & Hsome & Hne).
  rewrite Hsome in Hlower. simpl in Hlower.
  exists (List.hd "" (PyStr.split "." fk)). split; [|done].
  apply (elem_of_get_valid_join_paths dict_items table schema table_info);
    [done..|].
  left. exists col, fk. split_and!; try done.
  - by apply list_elem_of_In.
  - by apply bool_decide_eq_true.
Qed.

Lemma accepted_foreign_key_is_listed_witness :
  JoinPathVerifier.has_fk_to Scenario.fk_schema "orders" "CUSTOMER_ID" "Customers"
    = true ∧
  ∃ x, x ∈ JoinPathVerifier.get_valid_join_paths map_to_list "orders"
             Scenario.fk_schema ∧
       PyStr.lower x = PyStr.lower "Customers".
Proof.
  assert (JoinPathVerifier.has_fk_to Scenario.fk_schema "orders" "CUSTOMER_ID"
            "Customers" = true) as Hfk by reflexivity.
  split; [exact Hfk|].
  apply (accepted_foreign_key_is_listed map_to_list Scenario.fk_schema
           "orders" "CUSTOMER_ID" "Customers"); [|exact Hfk].
  intros m. reflexivity.
Defined.

(* ===================================================================== *)
(** ** What the referenced tables and the set order do not change *)
(* ===================================================================== *)



Lemma filter_Permutation {A} (test : A → bool) (l l' : list A) :
  l ≡ₚ l' → List.filter test l ≡ₚ List.filter test l'.
Proof.
  induction 1 as [|x l l' _ IH|x y l|l1 l2 l3 _ IH1 _ IH2]; simpl.
  - done.
  - destruct (test x); [by constructor|done].
  - destruct (test x), (test y); try done. apply Permutation_swap.
  - by etrans.
Qed.

Lemma foldl_gset_elem_of {Y} (step : gset string → Y → gset string) (Q : Y → Prop)
    (x : string) (l : list Y) (V : gset string) :
  (∀ V y, x ∈ step V y ↔ x ∈ V ∨ Q y) →
  x ∈ foldl step V l ↔ x ∈ V ∨ ∃ y, y ∈ l ∧ Q y.
Proof.
  intros Hstep. revert V. induction l as [|y l IH]; intros V; simpl.
  - split; [by left|]. intros [?|(y & Hy & _)]; [done|].
    by apply not_elem_of_nil in Hy.
  - rewrite IH, Hstep. split.
    + intros [[?|?]|(z & Hz & HQ)]; [by left|right..].
      * exists y. split; [by left|done].
      * exists z. split; [by right|done].
    + intros [?|(z & Hz & HQ)]; [by left; left|].
      apply elem_of_cons in Hz as [->|Hz]; [by left; right|].
      right. by exists z.
Qed.

Lemma elem_of_add_table_columns (schema : Schema.t) (V : gset string)
    (table x : string) :
  x ∈ HallucinationDetector.add_table_columns schema V table ↔
  x ∈ V ∨
  ∃ table_info col,
    HallucinationDetector.table_info_of schema (PyStr.last_segment table) table
      = Some table_info ∧
    col ∈ TableInfo.columns table_info ∧
    (x = PyStr.lower (ColumnInfo.name col) ∨
     x = PyStr.lower (PyStr.last_segment table) +:+ "."
           +:+ PyStr.lower (ColumnInfo.name col)).
Proof.
  unfold HallucinationDetector.add_table_columns.
  destruct (HallucinationDetector.table_info_of _ _ _) as [table_info|].
  - rewrite (foldl_gset_elem_of _
      (λ col, x = PyStr.lower (ColumnInfo.name col) ∨
              x = PyStr.lower (PyStr.last_segment table) +:+ "."
                    +:+ PyStr.lower (ColumnInfo.name col))).
    + split; (intros [?|H]; [by left|right]).
      * destruct H as (col & Hcol & H). by exists table_info, col.
      * destruct H as (ti & col & [= <-] & Hcol & H). by exists col.
    + intros V' col. rewrite !elem_of_union, !elem_of_singleton. tauto.
  - split; [by left|]. by intros [?|(? & ? & ? & _)].
Qed.

Lemma valid_columns_of_Permutation (tables tables' : list string)
    (aliases : gmap string string) (schema : Schema.t) :
  tables ≡ₚ tables' →
  HallucinationDetector.valid_columns_of tables aliases schema
  = HallucinationDetector.valid_columns_of tables' aliases schema.
Proof.
  intros Hperm. unfold HallucinationDetector.valid_columns_of.
  assert (foldl (HallucinationDetector.add_table_columns schema) ∅ tables
          = foldl (HallucinationDetector.add_table_columns schema) ∅ tables')
    as ->; [|done].
  apply set_eq. intros x.
  rewrite !(foldl_gset_elem_of _ _ x _ _
              (λ V table, elem_of_add_table_columns schema V table x)).
  split; (intros [?|(table & Htable & H)]; [by left|right]);
    exists table; (split; [|done]).
  - by rewrite <- Hperm.
  - by rewrite Hperm.
Qed.

(** X20.  The order in which the interpreter iterates sets changes the
    order of the lists only: on the same tree, two interpreters extract
    the same identifiers up to order, and the detector then reports the
    same phantom tables, columns and functions up to order, so the same
    counts and the same score. *)
Theorem set_order_changes_order_only (rt rt' : Runtime) (ast : exp.Expression)
    (schema : Schema.t) (dialect : string) :
  set_order_ok rt → set_order_ok rt' →
  let a := SQLParser._extract_all_identifiers rt ast in
  let b := SQLParser._extract_all_identifiers rt' ast in
  IdentifierSet.tables a ≡ₚ IdentifierSet.tables b ∧
  IdentifierSet.columns a ≡ₚ IdentifierSet.columns b ∧
  IdentifierSet.functions a ≡ₚ IdentifierSet.functions b ∧
  IdentifierSet.aliases a = IdentifierSet.aliases b ∧
  HallucinationDetector._detect_phantom_tables (IdentifierSet.tables a) schema
    ≡ₚ HallucinationDetector._detect_phantom_tables (IdentifierSet.tables b) schema ∧
  HallucinationDetector._detect_phantom_columns (IdentifierSet.columns a)
    (IdentifierSet.tables a) (IdentifierSet.aliases a) schema
    ≡ₚ HallucinationDetector._detect_phantom_columns (IdentifierSet.columns b)
         (IdentifierSet.tables b) (IdentifierSet.aliases b) schema ∧
  HallucinationDetector._detect_phantom_functions (IdentifierSet.functions a)
    dialect schema
    ≡ₚ HallucinationDetector._detect_phantom_functions (IdentifierSet.functions b)
         dialect schema.
Proof.
  intros Hrt Hrt' a b.
  assert (∀ X, list_of_set rt X ≡ₚ list_of_set rt' X) as Hperm.
  { intros X. by rewrite (Hrt X), (Hrt' X). }
  assert (IdentifierSet.tables a ≡ₚ IdentifierSet.tables b) as Htables
    by apply Hperm.
  assert (IdentifierSet.columns a ≡ₚ IdentifierSet.columns b) as Hcolumns
    by apply Hperm.
  assert (IdentifierSet.functions a ≡ₚ IdentifierSet.functions b) as Hfunctions
    by apply Hperm.
  split_and!; try done.
  - unfold HallucinationDetector._detect_phantom_tables.
    rewrite !foldl_append_if. by apply filter_Permutation.
  - rewrite !_detect_phantom_columns_filter.
    change (IdentifierSet.aliases b) with (IdentifierSet.aliases a).
    rewrite (valid_columns_of_Permutation _ _ _ _ Htables).
    by apply filter_Permutation.
  - unfold HallucinationDetector._detect_phantom_functions.
    rewrite !foldl_append_if. by apply filter_Permutation.
Qed.

Lemma reversed_order_ok : set_order_ok Scenario.reversed_runtime.
Proof. intros X. simpl. apply reverse_Permutation. Qed.

Lemma set_order_changes_order_only_witness :
  IdentifierSet.columns
    (SQLParser._extract_all_identifiers Scenario.runtime Scenario.customers_tree)
  = reverse (IdentifierSet.columns
      (SQLParser._extract_all_identifiers Scenario.reversed_runtime
         Scenario.customers_tree)) ∧
  IdentifierSet.columns
    (SQLParser._extract_all_identifiers Scenario.runtime Scenario.customers_tree)
  ≡ₚ IdentifierSet.columns
       (SQLParser._extract_all_identifiers Scenario.reversed_runtime
          Scenario.customers_tree).
Proof.
  split; [vm_compute; reflexivity|].
  apply (set_order_changes_order_only Scenario.runtime Scenario.reversed_runtime
           Scenario.customers_tree Scenario.customers_schema "").
  - apply elements_order_ok.
  - apply reversed_order_ok.
Defined.
